(** * Brain-connectivity prediction scripts (Team 15, Team 17)

    A shallow embedding of the preprocessing pipeline, the cross-validation
    harnesses and the output writers of [Team 17/main.py] and
    [Team 15/team15.py], followed by the properties of the specification
    that are settled on it.

    Conventions of the embedding:
    - a Python float is a [pyfloat]: [NaN] or a finite value denoted by a
      rational; every comparison with [NaN] is false, as in Python;
    - a raised exception is a [Raise e] result that aborts the rest of the
      function, as in Python;
    - a pandas DataFrame is a [frame]: column labels, row labels (the index)
      and a row-major table of floats;
    - the numeric libraries the scripts call (Pearson correlation, OLS
      p-value, the regressors, the seeded shuffle) are parameters of the
      embedding: the scripts' own control flow is what is modelled. *)

From Stdlib Require Import String.
From Stdlib Require Import List Arith Bool Lia ZArith QArith Qabs Qround Lqa.
Import ListNotations.
Open Scope list_scope.
Open Scope nat_scope.

Set Implicit Arguments.

(** ** Python values *)

Inductive pyfloat : Type :=
| NaN
| Fin (q : Q).

(** [a >= b] *)
Definition ge (a b : pyfloat) : bool :=
  match a, b with
  | Fin x, Fin y => Qle_bool y x
  | _, _ => false
  end.

(** [a > b] *)
Definition gt (a b : pyfloat) : bool :=
  match a, b with
  | Fin x, Fin y => negb (Qle_bool x y)
  | _, _ => false
  end.

(** [a == b] *)
Definition feq (a b : pyfloat) : bool :=
  match a, b with
  | Fin x, Fin y => Qeq_bool x y
  | _, _ => false
  end.

(** [abs(a)] *)
Definition fabs (a : pyfloat) : pyfloat :=
  match a with
  | NaN => NaN
  | Fin q => Fin (Qabs q)
  end.

Inductive exn : Type :=
| AxisError
| IndexError
| KeyError
| ValueError.

Inductive result (A : Type) : Type :=
| Ok (a : A)
| Raise (e : exn).

Arguments Ok {A} a.
Arguments Raise {A} e.

Definition bind {A B : Type} (r : result A) (k : A -> result B) : result B :=
  match r with
  | Ok a => k a
  | Raise e => Raise e
  end.

Notation "x <- r ;; k" := (bind r (fun x => k))
  (at level 61, r at next level, right associativity).
Notation "' p <- r ;; k" := (bind r (fun p => k))
  (at level 61, p pattern, r at next level, right associativity).

(** A [for] loop whose body may raise: the state is threaded through the
    iterations and the first exception ends the loop. *)
Fixpoint for_each {A S : Type} (body : S -> A -> result S) (l : list A) (s : S)
  : result S :=
  match l with
  | [] => Ok s
  | a :: l' => s' <- body s a ;; for_each body l' s'
  end.

(** [range(a, b)] *)
Definition range (a b : nat) : list nat := seq a (b - a).

(** ** Data frames *)

(** A row or column label: a name read from a CSV header, or a position of
    a default [RangeIndex]. *)
Inductive label : Type :=
| Name (s : string)
| Pos (n : nat).

Definition label_eqb (a b : label) : bool :=
  match a, b with
  | Name s, Name t => String.eqb s t
  | Pos n, Pos m => Nat.eqb n m
  | _, _ => false
  end.

Definition RangeIndex (n : nat) : list label := map Pos (seq 0 n).

Record frame : Type := mkFrame {
  columns : list label;
  index : list label;
  values : list (list pyfloat)
}.

Definition shape0 (df : frame) : nat := length (values df).
Definition shape1 (df : frame) : nat := length (columns df).

(** Column [j] of a row-major table, as in [a[:, j]] on the values. *)
Definition column_of (rows : list (list pyfloat)) (j : nat) : list pyfloat :=
  map (fun row => nth j row NaN) rows.

(** [a.flatten()] of a 2-D array (row-major). *)
Definition flatten (a : list (list pyfloat)) : list pyfloat := concat a.

(** [pd.DataFrame(data = a, columns = names)] for a 2-D array [a]: a fresh
    RangeIndex; the column count must match the labels. *)
Definition DataFrame_of_array (a : list (list pyfloat)) (names : list label)
  : result frame :=
  if forallb (fun row => length row =? length names) a
  then Ok (mkFrame names (RangeIndex (length a)) a)
  else Raise ValueError.

(** [pd.DataFrame(a)] for a 2-D array [a] of [m] columns: default labels
    on both axes. *)
Definition DataFrame_default (m : nat) (a : list (list pyfloat)) : frame :=
  mkFrame (RangeIndex m) (RangeIndex (length a)) a.

(** Positions of the label [nm] among [names]. *)
Definition positions_of (nm : label) (names : list label) : list nat :=
  filter (fun p => label_eqb (nth p names (Pos 0)) nm) (seq 0 (length names)).

(** The column indexer of [df[names]]: for each requested label, every
    column carrying it; a label carried by no column raises [KeyError]. *)
Fixpoint indexer (names : list label) (have : list label) : result (list nat) :=
  match names with
  | [] => Ok []
  | nm :: rest =>
      match positions_of nm have with
      | [] => Raise KeyError
      | ps => qs <- indexer rest have ;; Ok (ps ++ qs)
      end
  end.

Definition take_positions (ps : list nat) (row : list pyfloat) : list pyfloat :=
  map (fun p => nth p row NaN) ps.

(** [df[names]] *)
Definition getitem (df : frame) (names : list label) : result frame :=
  ps <- indexer names (columns df) ;;
  Ok (mkFrame (map (fun p => nth p (columns df) (Pos 0)) ps)
              (index df)
              (map (take_positions ps) (values df))).

(** [pd.DataFrame(data = df, columns = names)] for a frame [df]: the frame
    re-indexed on the labels; a label [df] does not carry gives a column of
    [NaN] (no exception).  The labels of a frame read from a CSV file are
    distinct, so a requested label has at most one column. *)
Definition reindex_cell (have : list label) (row : list pyfloat) (nm : label)
  : pyfloat :=
  match positions_of nm have with
  | [] => NaN
  | p :: _ => nth p row NaN
  end.

Definition DataFrame_of_frame (df : frame) (names : list label) : frame :=
  mkFrame names (index df)
          (map (fun row => map (reindex_cell (columns df) row) names) (values df)).

(** The rows of [df] at the given positions, in the given order. *)
Definition take_rows (df : frame) (rows : list nat) : frame :=
  mkFrame (columns df)
          (map (fun r => nth r (index df) (Pos 0)) rows)
          (map (fun r => nth r (values df) []) rows).

(** [df.iloc[rows]] for a list of positions; a position past the end raises. *)
Definition iloc_rows (df : frame) (rows : list nat) : result frame :=
  if forallb (fun r => r <? shape0 df) rows
  then Ok (take_rows df rows)
  else Raise IndexError.

(** The cell a row label gives when it becomes a value: row labels in these
    scripts are positions. *)
Definition label_value (l : label) : pyfloat :=
  match l with
  | Pos n => Fin (inject_Z (Z.of_nat n))
  | Name _ => NaN
  end.

(** [df.reset_index()]: the old row labels become the first column, named
    [index], or [level_0] when a column is already labelled [index] (and
    [ValueError] when [level_0] is taken as well); the row labels become
    [0 .. n-1]. *)
Definition reset_index (df : frame) : result frame :=
  let has := fun nm => existsb (label_eqb nm) (columns df) in
  let inserted := fun nm =>
    mkFrame (nm :: columns df) (RangeIndex (shape0 df))
            (map (fun k => label_value (nth k (index df) (Pos 0))
                           :: nth k (values df) [])
                 (seq 0 (shape0 df))) in
  if has (Name "index")
  then if has (Name "level_0") then Raise ValueError
       else Ok (inserted (Name "level_0"))
  else Ok (inserted (Name "index")).

(** [df.drop(columns=[lbl])] and [df.drop(lbl, axis=1)]: every column
    carrying the label is removed; a label no column carries raises
    [KeyError]. *)
Definition drop_columns (df : frame) (lbl : label) : result frame :=
  match positions_of lbl (columns df) with
  | [] => Raise KeyError
  | _ :: _ =>
      let keep := filter (fun p => negb (label_eqb (nth p (columns df) (Pos 0)) lbl))
                         (seq 0 (shape1 df)) in
      Ok (mkFrame (map (fun p => nth p (columns df) (Pos 0)) keep)
                  (index df)
                  (map (take_positions keep) (values df)))
  end.

(** [df.drop(labels).values]: rows whose label is listed are removed, the
    others keep their order; a listed label that no row carries raises
    [KeyError]. *)
Definition drop_values (df : frame) (labels : list label)
  : result (list (list pyfloat)) :=
  if forallb (fun l => existsb (label_eqb l) (index df)) labels
  then Ok (map snd
             (filter (fun lr => negb (existsb (label_eqb (fst lr)) labels))
                     (combine (index df) (values df))))
  else Raise KeyError.

(** ** numpy arrays of one or two dimensions *)

Inductive ndarray : Type :=
| Arr1 (v : list pyfloat)
| Arr2 (rows : list (list pyfloat)).

Fixpoint delete_nth {A : Type} (j : nat) (l : list A) : list A :=
  match l, j with
  | [], _ => []
  | _ :: t, O => t
  | a :: t, S j' => a :: delete_nth j' t
  end.

(** [np.delete(arr, obj, axis)] for an integer [obj]: an axis the array
    does not have raises [AxisError], an index past the end of the axis
    raises [IndexError]. *)
Definition np_delete (arr : ndarray) (obj axis : nat) : result ndarray :=
  match arr, axis with
  | Arr1 v, 0 =>
      if obj <? length v then Ok (Arr1 (delete_nth obj v)) else Raise IndexError
  | Arr2 rows, 0 =>
      if obj <? length rows then Ok (Arr2 (delete_nth obj rows)) else Raise IndexError
  | Arr2 rows, 1 =>
      if forallb (fun row => obj <? length row) rows
      then Ok (Arr2 (map (delete_nth obj) rows))
      else Raise IndexError
  | _, _ => Raise AxisError
  end.

(** [np.delete(arr, obj)] without an axis, on a 1-D array of labels. *)
Definition np_delete_flat {A : Type} (arr : list A) (obj : nat) : result (list A) :=
  if obj <? length arr then Ok (delete_nth obj arr) else Raise IndexError.

(** [a[:, i]] *)
Definition slice_column (a : ndarray) (i : nat) : result (list pyfloat) :=
  match a with
  | Arr1 _ => Raise IndexError
  | Arr2 rows =>
      if forallb (fun row => i <? length row) rows
      then Ok (column_of rows i)
      else Raise IndexError
  end.

(** [len(a[0])] *)
Definition len_first_row (a : ndarray) : result nat :=
  match a with
  | Arr2 (row :: _) => Ok (length row)
  | _ => Raise IndexError
  end.

(** [a[j]] on a 1-D array. *)
Definition getitem1 (a : list pyfloat) (j : nat) : result pyfloat :=
  match nth_error a j with
  | Some v => Ok v
  | None => Raise IndexError
  end.

(** [a[i, :]] on a 2-D array. *)
Definition row_at (a : list (list pyfloat)) (i : nat) : result (list pyfloat) :=
  match nth_error a i with
  | Some row => Ok row
  | None => Raise IndexError
  end.

(** Python's builtin [max] over a sequence: the first element, replaced by
    each later element that compares greater; empty input raises. *)
Definition py_max (l : list pyfloat) : result pyfloat :=
  match l with
  | [] => Raise ValueError
  | a :: t => Ok (fold_left (fun m v => if gt v m then v else m) t a)
  end.

(** ** External libraries

    What the scripts take from numpy, pandas, statsmodels and scikit-learn
    and do not define themselves. *)

Class Library : Type := {
  (** state of a pseudo-random generator *)
  rng : Type;
  (** the state after [seed(s)] *)
  seed_state : nat -> rng;
  (** [shuffle(indices)]: the shuffled indices and the state afterwards *)
  rng_shuffle : rng -> list nat -> list nat * rng;
  (** an entry of [DataFrame.corr()]: Pearson correlation of two columns,
      [NaN] when undefined *)
  pearson : list pyfloat -> list pyfloat -> pyfloat;
  (** [SMM.OLS(endog, exog).fit().pvalues] for one regressor: its p-value;
      the call raises on arrays it refuses (of different lengths) *)
  ols_pvalue : list pyfloat -> list pyfloat -> result pyfloat;
  (** a fitted regressor *)
  model : Type;
  (** [estimator.fit(X, Y)] for the estimator of the script at hand
      ([RidgeCV] in Team 17, the voting ensemble in Team 15); the call
      raises on data the estimator refuses *)
  estimator_fit : frame -> frame -> result model;
  (** [model.predict(X)]: a 2-D array, or an exception *)
  model_predict : model -> frame -> result (list (list pyfloat));
  (** [sklearn.metrics.mean_squared_error] on two arrays *)
  mean_squared_error : ndarray -> ndarray -> result pyfloat;
  (** [sklearn.metrics.mean_absolute_error] on two arrays *)
  mean_absolute_error : ndarray -> ndarray -> result pyfloat;
  (** [scipy.stats.pearsonr(a, b)[0]] on two flat arrays *)
  pearsonr : list pyfloat -> list pyfloat -> result pyfloat
}.

(** Process-wide random state: numpy's global generator and the one of
    Python's [random] module. *)
Record world {L : Library} : Type := mkWorld {
  np_random : rng;
  py_random : rng
}.

Arguments mkWorld {L} np_random py_random.
Arguments np_random {L} w.
Arguments py_random {L} w.

(** Computations that read or write the process-wide state and may raise. *)
Definition M {L : Library} (A : Type) : Type := world -> result A * world.

Definition ret {L : Library} {A : Type} (a : A) : M A := fun w => (Ok a, w).

Definition lift {L : Library} {A : Type} (r : result A) : M A := fun w => (r, w).

Definition mbind {L : Library} {A B : Type} (m : M A) (k : A -> M B) : M B :=
  fun w =>
    match m w with
    | (Ok a, w') => k a w'
    | (Raise e, w') => (Raise e, w')
    end.

Notation "x <~ m ;; k" := (mbind m (fun x => k))
  (at level 61, m at next level, right associativity).
Notation "' p <~ m ;; k" := (mbind m (fun p => k))
  (at level 61, p pattern, m at next level, right associativity).

(** [np.random.seed(s)] and [random.seed(s)]; both return [None]. *)
Definition np_random_seed {L : Library} (s : nat) : M unit :=
  fun w => (Ok tt, mkWorld (seed_state s) (py_random w)).

Definition r_seed {L : Library} (s : nat) : M unit :=
  fun w => (Ok tt, mkWorld (np_random w) (seed_state s)).

(** ** scikit-learn's KFold *)

Section KFold.
Context {L : Library}.

(** Fold sizes: [n // n_splits] each, the first [n % n_splits] one more. *)
Definition fold_sizes (n_splits n : nat) : list nat :=
  map (fun k => n / n_splits + (if k <? n mod n_splits then 1 else 0))
      (seq 0 n_splits).

(** Consecutive blocks of the (possibly shuffled) indices. *)
Fixpoint blocks (sizes : list nat) (indices : list nat) : list (list nat) :=
  match sizes with
  | [] => []
  | s :: rest => firstn s indices :: blocks rest (skipn s indices)
  end.

Definition mem (i : nat) (l : list nat) : bool := existsb (Nat.eqb i) l.

(** A fold as [split] yields it: train and test positions, both ascending
    (they are read off a boolean mask over [arange(n)]). *)
Definition fold_of (n : nat) (block : list nat) : list nat * list nat :=
  (filter (fun i => negb (mem i block)) (seq 0 n),
   filter (fun i => mem i block) (seq 0 n)).

(** [KFold(n_splits, random_state, shuffle).split(range(n))].
    The constructor rejects fewer than two splits and a seed without
    shuffling; [split] rejects more splits than samples.  With
    [shuffle=True] an integer seed gives a private generator and [None]
    draws from numpy's global one. *)
Definition KFold_split (n_splits : nat) (random_state : option nat)
           (shuffle : bool) (n : nat) : M (list (list nat * list nat)) :=
  fun w =>
    if n_splits <=? 1 then (Raise ValueError, w)
    else if negb shuffle && (match random_state with Some _ => true | None => false end)
    then (Raise ValueError, w)
    else if n <? n_splits then (Raise ValueError, w)
    else
      let '(indices, w') :=
        if shuffle then
          match random_state with
          | Some s => (fst (rng_shuffle (seed_state s) (seq 0 n)), w)
          | None =>
              let '(p, g) := rng_shuffle (np_random w) (seq 0 n) in
              (p, mkWorld g (py_random w))
          end
        else (seq 0 n, w) in
      (Ok (map (fold_of n) (blocks (fold_sizes n_splits n) indices)), w').

End KFold.

(** A [for] loop in [M]. *)
Fixpoint mfor_each {L : Library} {A S : Type} (body : S -> A -> M S)
         (l : list A) (s : S) : M S :=
  match l with
  | [] => ret s
  | a :: l' => s' <~ body s a ;; mfor_each body l' s'
  end.

(** The file a writer produces: its header line and, per data row, the ID
    and the number its [predicted] cell reads as. *)
Record csv_file : Type := mkCsv {
  header : string;
  rows : list (nat * pyfloat)
}.


(** ** Team 17 (main.py) *)

Module Team17.
Section Pipeline.
Context {L : Library}.

Definition threshold_corr : pyfloat := Fin (9 # 10).
Definition threshold_pvalue : pyfloat := Fin (5 # 100).
Definition threshold_error : pyfloat := Fin (6 # 1000).

(** *** Feature Reducer (lines 90-109) *)

(** [x_tra.corr()] *)
Definition DataFrame_corr (df : frame) : list (list pyfloat) :=
  let cols := map (column_of (values df)) (seq 0 (shape1 df)) in
  map (fun a => map (pearson a) cols) cols.

(** [corr.iloc[i, j]] *)
Definition iloc (corr : list (list pyfloat)) (i j : nat) : pyfloat :=
  nth j (nth i corr []) NaN.

(** [columns[j] = False] *)
Fixpoint set_false (j : nat) (cols : list bool) : list bool :=
  match cols, j with
  | [], _ => []
  | _ :: t, O => false :: t
  | b :: t, S j' => b :: set_false j' t
  end.

(** Body of the inner loop (lines 98-100). *)
Definition mark (corr : list (list pyfloat)) (i : nat) (cols : list bool) (j : nat)
  : list bool :=
  if ge (iloc corr i j) threshold_corr
  then if nth j cols false then set_false j cols else cols
  else cols.

(** Lines 94-100: the boolean array [columns] after the two loops. *)
Definition correlation_mask (corr : list (list pyfloat)) : list bool :=
  let n := length corr in
  fold_left
    (fun cols i => fold_left (mark corr i) (range (i + 1) n) cols)
    (range 0 n)
    (repeat true n).

(** Positions a boolean mask selects. *)
Definition selected_positions (mask : list bool) : list nat :=
  filter (fun j => nth j mask false) (seq 0 (length mask)).

(** [names[mask]] *)
Definition labels_at (names : list label) (mask : list bool) : list label :=
  map (fun p => nth p names (Pos 0)) (selected_positions mask).

(** Lines 90-105: the selected labels, [t0] and [t1_temp]. *)
Definition feature_reducer (x_tra y_tra : frame)
  : result (list label * frame * frame) :=
  let corr := DataFrame_corr x_tra in
  let mask := correlation_mask corr in
  let selected_columns := labels_at (columns x_tra) mask in
  t0 <- getitem x_tra selected_columns ;;
  t1_temp <- getitem y_tra selected_columns ;;
  Ok (selected_columns, t0, t1_temp).

(** *** Backward Eliminator (lines 106-124) *)

(** Body of the inner loop (lines 119-122). *)
Definition eliminate_step (pvalues : list pyfloat) (maxVar : pyfloat)
           (st : ndarray * ndarray * list label) (j : nat)
  : result (ndarray * ndarray * list label) :=
  let '(x_temp, x, cols) := st in
  pj <- getitem1 pvalues j ;;
  if feq pj maxVar then
    x_temp' <- np_delete x_temp j 1 ;;
    x' <- np_delete x_temp' j 1 ;;
    cols' <- np_delete_flat cols j ;;
    Ok (x_temp', x', cols')
  else Ok st.

(** Body of the outer loop (lines 113-122), for feature index [i]. *)
Definition eliminate_pass (numVars : nat) (y : ndarray)
           (st : ndarray * list label) (i : nat) : result (ndarray * list label) :=
  let '(x, cols) := st in
  Y_temp <- slice_column y i ;;
  x_temp <- slice_column x i ;;
  p <- ols_pvalue Y_temp x_temp ;;
  let pvalues := [p] in
  maxVar <- py_max pvalues ;;
  if gt maxVar threshold_pvalue then
    '(_, x', cols') <-
      for_each (eliminate_step pvalues maxVar) (range 0 (numVars - i))
               (Arr1 x_temp, x, cols) ;;
    Ok (x', cols')
  else Ok st.

(** Lines 111-122. *)
Definition backward_elimination (x y : ndarray) (cols : list label)
  : result (ndarray * list label) :=
  numVars <- len_first_row x ;;
  for_each (eliminate_pass numVars y) (range 0 numVars) (x, cols).

(** [pd.DataFrame(data = x, columns = names)] for the array [x]. *)
Definition DataFrame_of_ndarray (x : ndarray) (names : list label) : result frame :=
  match x with
  | Arr2 rows => DataFrame_of_array rows names
  | Arr1 v => DataFrame_of_array (map (fun a => [a]) v) names
  end.

(** Lines 106-124: the train and test frames the eliminator hands on. *)
Definition backward_eliminator (selected_columns : list label)
           (t0 t1_temp x_tst : frame) : result (frame * frame) :=
  let cols := selected_columns in
  let x := Arr2 (values t0) in
  let y := Arr2 (values t1_temp) in
  '(x, _) <- backward_elimination x y cols ;;
  x_tra <- DataFrame_of_ndarray x selected_columns ;;
  Ok (x_tra, DataFrame_of_frame x_tst selected_columns).

(** *** Model and error (lines 69-72, 152-176) *)

Definition error_func (actual : frame) (predicted : list (list pyfloat))
  : result pyfloat :=
  mean_squared_error (Arr1 (flatten predicted)) (Arr1 (flatten (values actual))).

Definition train_model (x_tra y_tra : frame) : result model :=
  estimator_fit x_tra y_tra.

Definition predict (x_tst : frame) (m : model) : result (list (list pyfloat)) :=
  model_predict m x_tst.

(** *** Outlier Filter (lines 126-150) *)

(** The held-out error of one fold (lines 133-137). *)
Definition fold_error (x_tra y_tra : frame) (fold : list nat * list nat)
  : result pyfloat :=
  let '(train_indices, test_indices) := fold in
  x_train <- iloc_rows x_tra train_indices ;;
  y_train <- iloc_rows y_tra train_indices ;;
  x_test <- iloc_rows x_tra test_indices ;;
  y_test <- iloc_rows y_tra test_indices ;;
  m <- train_model x_train y_train ;;
  y_pred <- predict x_test m ;;
  error_func y_test y_pred.

(** Body of the loop (lines 133-141) on [(error_samples, cv_index)]. *)
Definition loo_body (x_tra y_tra : frame) (st : list nat * nat)
           (fold : list nat * list nat) : result (list nat * nat) :=
  let '(error_samples, cv_index) := st in
  error <- fold_error x_tra y_tra fold ;;
  Ok (if gt error threshold_error then error_samples ++ [cv_index] else error_samples,
      cv_index + 1).

(** Lines 126-141: [error_samples]. *)
Definition find_outliers (x_tra y_tra : frame) : M (list nat) :=
  random_state <~ r_seed 1 ;;
  split_indices <~ KFold_split (shape0 x_tra) None false (shape0 x_tra) ;;
  lift ('(error_samples, _) <-
          for_each (loo_body x_tra y_tra) split_indices ([], 0) ;;
        Ok error_samples).

(** [df.reset_index().drop("index", axis=1)] (lines 144 and 145). *)
Definition reset_index_drop (df : frame) : result frame :=
  r <- reset_index df ;; drop_columns r (Name "index").

(** Lines 143-149. *)
Definition drop_outliers (x_tra y_tra : frame) (order : list nat)
  : result (frame * frame) :=
  x_tra <- reset_index_drop x_tra ;;
  y_tra <- reset_index_drop y_tra ;;
  xv <- drop_values x_tra (map Pos order) ;;
  yv <- drop_values y_tra (map Pos order) ;;
  Ok (DataFrame_default (shape1 x_tra) xv, DataFrame_default (shape1 y_tra) yv).

Definition outlier_filter (x_tra y_tra : frame) : M (frame * frame) :=
  order <~ find_outliers x_tra y_tra ;;
  lift (drop_outliers x_tra y_tra order).

(** *** preprocessing (lines 75-150) *)

Definition preprocessing (x_tra y_tra x_tst : frame) : M (frame * frame * frame) :=
  '(selected_columns, t0, t1_temp) <~ lift (feature_reducer x_tra y_tra) ;;
  '(x_tra', x_tst') <~ lift (backward_eliminator selected_columns t0 t1_temp x_tst) ;;
  '(x_tra'', y_tra') <~ outlier_filter x_tra' y_tra ;;
  ret (x_tra'', y_tra', x_tst').

(** *** cross_validation (lines 178-215) *)

(** Lines 199-201: the slices of one fold and their preprocessing. *)
Definition fold_preprocessing (X Y : frame) (fold : list nat * list nat)
  : M (frame * frame * frame) :=
  let '(train_indices, test_indices) := fold in
  x_train <~ lift (iloc_rows X train_indices) ;;
  y_train <~ lift (iloc_rows Y train_indices) ;;
  x_test <~ lift (iloc_rows X test_indices) ;;
  preprocessing x_train y_train x_test.

(** Body of the loop (lines 199-207) on the lists [errors], [maes] and
    [pcc]. *)
Definition cv_body (X Y : frame) (acc : list pyfloat * list pyfloat * list pyfloat)
           (fold : list nat * list nat)
  : M (list pyfloat * list pyfloat * list pyfloat) :=
  let '(errors, maes, pcc) := acc in
  y_test <~ lift (iloc_rows Y (snd fold)) ;;
  '(x_train, y_train, x_test) <~ fold_preprocessing X Y fold ;;
  m <~ lift (train_model x_train y_train) ;;
  y_pred <~ lift (predict x_test m) ;;
  error <~ lift (error_func y_test y_pred) ;;
  a <~ lift (mean_absolute_error (Arr2 y_pred) (Arr2 (values y_test))) ;;
  r <~ lift (pearsonr (flatten y_pred) (flatten (values y_test))) ;;
  ret (errors ++ [error], maes ++ [a], pcc ++ [r]).

(** Lines 195-196: the 5-fold split with the fixed seed. *)
Definition cv_split (X : frame) : M (list (list nat * list nat)) :=
  KFold_split 5 (Some 1) true (shape0 X).

Definition cross_validation (x_tra y_tra : frame) : M (list pyfloat) :=
  split_indices <~ cv_split x_tra ;;
  '(errors, _, _) <~ mfor_each (cv_body x_tra y_tra) split_indices ([], [], []) ;;
  ret errors.

(** *** write_output (lines 217-235) *)

(** The flattened predictions become the single column of a frame with a
    default index; [melt] keeps the values in order under a fresh default
    index, which is written as the [ID] column; [to_csv] prints each float
    so that it reads back as the same float. *)
Definition write_output (predictions : list (list pyfloat)) : csv_file :=
  let meltedDF := flatten predictions in
  mkCsv "ID,predicted" (combine (seq 0 (length meltedDF)) meltedDF).

(** *** Main program (lines 50-51, 240-248) *)

Definition module_init : M unit :=
  _ <~ np_random_seed 1 ;;
  r_seed 1.

Definition main (x_tra y_tra x_tst : frame) : M csv_file :=
  _ <~ module_init ;;
  _ <~ cross_validation x_tra y_tra ;;
  '(x_tra, y_tra, x_tst) <~ preprocessing x_tra y_tra x_tst ;;
  m <~ lift (train_model x_tra y_tra) ;;
  predictions <~ lift (predict x_tst m) ;;
  ret (write_output predictions).

End Pipeline.
End Team17.

(** ** Team 15 (team15.py) *)

Module Team15.

(** [df.T] *)
Definition transpose (df : frame) : frame :=
  mkFrame (index df) (columns df)
          (map (column_of (values df)) (seq 0 (shape1 df))).

(** Equality of two cells for [drop_duplicates]: missing values count as
    equal to each other. *)
Definition same_cell (a b : pyfloat) : bool :=
  match a, b with
  | NaN, NaN => true
  | Fin x, Fin y => Qeq_bool x y
  | _, _ => false
  end.

Fixpoint same_row (a b : list pyfloat) : bool :=
  match a, b with
  | [], [] => true
  | x :: a', y :: b' => same_cell x y && same_row a' b'
  | _, _ => false
  end.

(** Rows in order, a row being kept when no earlier row has its values. *)
Fixpoint keep_first (seen : list (list pyfloat)) (rows : list (label * list pyfloat))
  : list (label * list pyfloat) :=
  match rows with
  | [] => []
  | (l, r) :: rest =>
      if existsb (same_row r) seen
      then keep_first seen rest
      else (l, r) :: keep_first (r :: seen) rest
  end.

(** [df.drop_duplicates(keep='first')] *)
Definition drop_duplicates (df : frame) : frame :=
  let kept := keep_first [] (combine (index df) (values df)) in
  mkFrame (columns df) (map fst kept) (map snd kept).

(** [df.T.drop_duplicates(keep='first').T] *)
Definition drop_duplicate_columns (df : frame) : frame :=
  transpose (drop_duplicates (transpose df)).

(** *** preprocessing (lines 62-75)

    Frames are objects in a store; a variable holds a reference.  [.T] and
    [drop_duplicates] allocate their result; an assignment rebinds a local
    name. *)

Definition store : Type := list frame.
Definition ref : Type := nat.

Inductive pyvalue : Type :=
| PyNone
| PyRef (r : ref).

Definition deref (h : store) (r : ref) : result frame :=
  match nth_error h r with
  | Some df => Ok df
  | None => Raise KeyError
  end.

Definition alloc (df : frame) (h : store) : ref * store := (length h, h ++ [df]).

Definition method_T (r : ref) (h : store) : result (ref * store) :=
  df <- deref h r ;; Ok (alloc (transpose df) h).

Definition method_drop_duplicates (r : ref) (h : store) : result (ref * store) :=
  df <- deref h r ;; Ok (alloc (drop_duplicates df) h).

Definition preprocessing (train_t0 test_t0 : ref) (h : store)
  : result (pyvalue * store) :=
  '(train_t0_T, h) <- method_T train_t0 h ;;
  '(tmp, h) <- method_drop_duplicates train_t0_T h ;;
  '(train_t0, h) <- method_T tmp h ;;
  '(test_t0_T, h) <- method_T test_t0 h ;;
  '(tmp, h) <- method_drop_duplicates test_t0_T h ;;
  '(test_t0, h) <- method_T tmp h ;;
  Ok (PyNone, h).

(** *** cv5 (lines 78-129) *)

Section CrossValidation.
Context {L : Library}.

(** Lines 94-101: the four slices of one fold after duplicate dropping. *)
Definition cv5_fold (X y : frame) (fold : list nat * list nat)
  : result (frame * frame * frame * frame) :=
  let '(train_index, test_index) := fold in
  X_train <- iloc_rows X train_index ;;
  X_test <- iloc_rows X test_index ;;
  y_train <- iloc_rows y train_index ;;
  y_test <- iloc_rows y test_index ;;
  let X_train := drop_duplicate_columns X_train in
  let X_test := drop_duplicate_columns X_test in
  Ok (X_train, X_test, y_train, y_test).

(** Lines 112-116: the per-sample mean absolute errors and correlations
    that are printed; row [i] of the prediction against row [i] of the
    labels. *)
Definition per_sample (prediction actual : list (list pyfloat)) : result unit :=
  _ <- for_each (fun _ i =>
                   p <- row_at prediction i ;;
                   a <- row_at actual i ;;
                   _ <- mean_absolute_error (Arr1 p) (Arr1 a) ;;
                   Ok tt)
                (range 0 (length prediction)) tt ;;
  for_each (fun _ i =>
              p <- row_at prediction i ;;
              a <- row_at actual i ;;
              _ <- pearsonr p a ;;
              Ok tt)
           (range 0 (length prediction)) tt.

(** Body of the loop (lines 94-117) on the lists [mse], [mae] and [pear]. *)
Definition cv5_body (X y : frame) (acc : list pyfloat * list pyfloat * list pyfloat)
           (fold : list nat * list nat)
  : M (list pyfloat * list pyfloat * list pyfloat) :=
  let '(mse, mae, pear) := acc in
  '(X_train, X_test, y_train, y_test) <~ lift (cv5_fold X y fold) ;;
  m <~ lift (estimator_fit X_train y_train) ;;
  prediction <~ lift (model_predict m X_test) ;;
  e <~ lift (mean_squared_error (Arr2 prediction) (Arr2 (values y_test))) ;;
  a <~ lift (mean_absolute_error (Arr2 prediction) (Arr2 (values y_test))) ;;
  r <~ lift (pearsonr (flatten prediction) (flatten (values y_test))) ;;
  _ <~ lift (per_sample prediction (values y_test)) ;;
  ret (mse ++ [e], mae ++ [a], pear ++ [r]).

(** Lines 87-129; what is returned here is the list [mse] that is printed. *)
Definition cv5 (X y : frame) : M (list pyfloat) :=
  split <~ KFold_split 5 (Some 1) true (shape0 X) ;;
  '(mse, _, _) <~ mfor_each (cv5_body X y) split ([], [], []) ;;
  ret mse.

End CrossValidation.

(** *** write_output (lines 156-166) *)

(** Nearest integer, ties to even. *)
Definition round_half_even (q : Q) : Z :=
  let f := Qfloor q in
  match Qcompare (q - inject_Z f) (1 # 2) with
  | Lt => f
  | Gt => (f + 1)%Z
  | Eq => if Z.even f then f else (f + 1)%Z
  end.

(** The number a float reads as once printed with ["%f"]: six decimals. *)
Definition format_f (v : pyfloat) : pyfloat :=
  match v with
  | NaN => NaN
  | Fin q => Fin (Qmake (round_half_even (q * 1000000)) 1000000)
  end.

(** [np.savetxt] with [fmt = "%d,%f"]; the header is written behind the
    comment prefix ["# "]. *)
Definition write_output (predictions : list (list pyfloat)) : csv_file :=
  let predictions := flatten predictions in
  let ids := map (fun k => k - 1) (range 1 (length predictions + 1)) in
  mkCsv "# ID, predicted" (combine ids (map format_f predictions)).

End Team15.

(** ** A small exact library for running the embedding

    Rational arithmetic stands in for the numeric libraries of Team 17's
    script on concrete inputs: the Pearson correlation (exact whenever it
    is rational), the two error measures, the p-values that are rational,
    a generator whose shuffle reverses, and as regressor a mean predictor
    that refuses the data [RidgeCV] refuses. *)

Module Example.

Fixpoint finite (l : list pyfloat) : option (list Q) :=
  match l with
  | [] => Some []
  | NaN :: _ => None
  | Fin q :: t =>
      match finite t with
      | Some t' => Some (q :: t')
      | None => None
      end
  end.

Definition qsum (l : list Q) : Q := fold_right Qplus 0%Q l.

Definition qdot (a b : list Q) : Q :=
  qsum (map (fun p => (fst p * snd p)%Q) (combine a b)).

Definition qlen (l : list Q) : Q := inject_Z (Z.of_nat (length l)).

(** [cov(a, b) / sqrt(var(a) * var(b))]; [NaN] on a zero variance or a
    missing value.  The square root of [p/q] is taken as [sqrt(p*q)/q] with
    the integer square root. *)
Definition pearson_exact (a b : list pyfloat) : pyfloat :=
  match finite a, finite b with
  | Some x, Some y =>
      let n := qlen x in
      let cov := (n * qdot x y - qsum x * qsum y)%Q in
      let vx := (n * qdot x x - qsum x * qsum x)%Q in
      let vy := (n * qdot y y - qsum y * qsum y)%Q in
      let d := Qred (vx * vy) in
      if Qeq_bool d 0 then NaN
      else Fin (Qred (cov * inject_Z (Zpos (Qden d))
                      / inject_Z (Z.sqrt (Qnum d * Zpos (Qden d)))))
  | _, _ => NaN
  end.

(** A 1-D array seen as one column, as the metrics of scikit-learn do. *)
Definition as_rows (a : ndarray) : list (list pyfloat) :=
  match a with
  | Arr1 v => map (fun c => [c]) v
  | Arr2 rows => rows
  end.

Definition width (rows : list (list pyfloat)) : nat :=
  match rows with
  | [] => 0
  | r :: _ => length r
  end.

Definition all_finite (rows : list (list pyfloat)) : bool :=
  forallb (forallb (fun c => match c with NaN => false | Fin _ => true end)) rows.

(** What scikit-learn's input validation accepts for a pair of arrays:
    the same shape, at least one sample and one column, no missing
    value. *)
Definition consistent (a b : list (list pyfloat)) : bool :=
  (length a =? length b) && negb (length a =? 0) && negb (width a =? 0) &&
  forallb (fun r => length r =? width a) a &&
  forallb (fun r => length r =? width a) b &&
  all_finite a && all_finite b.

(** The mean over all cells of [f (a - b)]. *)
Definition mean_of (f : Q -> Q) (a b : ndarray) : result pyfloat :=
  let ra := as_rows a in
  let rb := as_rows b in
  if consistent ra rb then
    match finite (flatten ra), finite (flatten rb) with
    | Some x, Some y =>
        Ok (Fin (Qred (qsum (map (fun p => f (fst p - snd p)%Q) (combine x y))
                       / qlen x)))
    | _, _ => Raise ValueError
    end
  else Raise ValueError.

(** Mean of the squared differences. *)
Definition mse_exact : ndarray -> ndarray -> result pyfloat :=
  mean_of (fun d => (d * d)%Q).

(** Mean of the absolute differences. *)
Definition mae_exact : ndarray -> ndarray -> result pyfloat :=
  mean_of Qabs.

(** [pearsonr] refuses arrays of different lengths and arrays shorter
    than 2. *)
Definition pearsonr_exact (a b : list pyfloat) : result pyfloat :=
  if (length a =? length b) && (2 <=? length a)
  then Ok (pearson_exact a b)
  else Raise ValueError.

(** p-value of the slope of [Y ~ x] without intercept.  Arrays of
    different lengths are refused.  The p-value is [NaN] when the
    regressor is zero, when there is a single sample (no residual degree
    of freedom) and when the labels are zero; it is 0 for an exact fit and
    1 for a zero slope.  In the remaining cases the p-value is irrational
    and this stand-in has no answer: it gives [NaN] there, and every
    example of this development stays within the cases above. *)
Definition pvalue_exact (Y x : list pyfloat) : result pyfloat :=
  if negb (length Y =? length x) then Raise ValueError
  else
    match finite Y, finite x with
    | Some ys, Some xs =>
        let sxx := qdot xs xs in
        let sxy := qdot xs ys in
        let syy := qdot ys ys in
        if Qeq_bool sxx 0 then Ok NaN
        else if length xs <=? 1 then Ok NaN
        else if Qeq_bool syy 0 then Ok NaN
        else if Qeq_bool (sxy * sxy) (sxx * syy) then Ok (Fin 0)
        else if Qeq_bool sxy 0 then Ok (Fin 1)
        else Ok NaN
    | _, _ => Ok NaN
    end.

(** The mean of each label column, predicted for every row. *)
Definition column_mean (rows : list (list pyfloat)) (j : nat) : pyfloat :=
  match finite (column_of rows j) with
  | Some c => if length c =? 0 then NaN else Fin (Qred (qsum c / qlen c))
  | None => NaN
  end.

(** A fitted mean predictor: the number of features it was fitted on and
    the mean of each label column. *)
Definition mean_model : Type := nat * list pyfloat.

(** As [RidgeCV(normalize=True).fit] does, the fit refuses a training set
    of fewer than two samples, one without feature or label columns, one
    with a missing value, and features and labels of different lengths. *)
Definition mean_fit (X Y : frame) : result mean_model :=
  if (2 <=? shape0 X) && (shape0 X =? shape0 Y) &&
     negb (shape1 X =? 0) && negb (shape1 Y =? 0) &&
     forallb (fun r => length r =? shape1 X) (values X) &&
     forallb (fun r => length r =? shape1 Y) (values Y) &&
     all_finite (values X) && all_finite (values Y)
  then Ok (shape1 X, map (column_mean (values Y)) (seq 0 (shape1 Y)))
  else Raise ValueError.

(** The prediction refuses an empty frame, a frame of another number of
    features than the fit saw, and a missing value. *)
Definition mean_predict (m : mean_model) (X : frame)
  : result (list (list pyfloat)) :=
  if negb (shape0 X =? 0) && (shape1 X =? fst m) &&
     forallb (fun r => length r =? fst m) (values X) &&
     all_finite (values X)
  then Ok (map (fun _ => snd m) (values X))
  else Raise ValueError.

#[export] Instance library : Library := {
  rng := nat;
  seed_state := fun s => s;
  rng_shuffle := fun g l => (rev l, S g);
  pearson := pearson_exact;
  ols_pvalue := pvalue_exact;
  model := mean_model;
  estimator_fit := mean_fit;
  model_predict := mean_predict;
  mean_squared_error := mse_exact;
  mean_absolute_error := mae_exact;
  pearsonr := pearsonr_exact
}.

End Example.

(** ** Vocabulary of the statements *)

Module Spec17.
Import Team17.
Section WithLibrary.
Context {L : Library}.

(** The positions [0 .. n-1] without [k]. *)
Definition all_but (n k : nat) : list nat :=
  filter (fun i => negb (mem i [k])) (seq 0 n).

(** The error of the model trained on all samples but [k] when it predicts
    sample [k]; the fit, the prediction and the error measure may raise. *)
Definition held_out_error (x_tra y_tra : frame) (k : nat) : result pyfloat :=
  let others := all_but (shape0 x_tra) k in
  m <- train_model (take_rows x_tra others) (take_rows y_tra others) ;;
  y_pred <- predict (take_rows x_tra [k]) m ;;
  error_func (take_rows y_tra [k]) y_pred.

(** Sample [k] is an outlier: its held-out error exceeds 0.006. *)
Definition flagged (x_tra y_tra : frame) (k : nat) : bool :=
  match held_out_error x_tra y_tra k with
  | Ok error => gt error threshold_error
  | Raise _ => false
  end.

(** Every leave-one-out fit, prediction and error measure returns. *)
Definition folds_return (x_tra y_tra : frame) : Prop :=
  forall k, k < shape0 x_tra -> exists error, held_out_error x_tra y_tra k = Ok error.

(** The rows of a table at the positions that are not flagged. *)
Definition survivors (x_tra y_tra : frame) (table : list (list pyfloat))
  : list (list pyfloat) :=
  map (fun k => nth k table [])
      (filter (fun k => negb (flagged x_tra y_tra k)) (seq 0 (shape0 x_tra))).

End WithLibrary.
End Spec17.

Module Spec.

(** An [N] by [M] array. *)
Definition is_matrix (N M : nat) (a : list (list pyfloat)) : Prop :=
  length a = N /\ Forall (fun row => length row = M) a.

(** What the per-fold preprocessing decides: the train rows it keeps (X
    and Y) and the column labels it selects on the test frame. *)
Definition selection (r : result (frame * frame * frame))
  : result (frame * frame * list label) :=
  '(x_train, y_train, x_test) <- r ;; Ok (x_train, y_train, columns x_test).

(** The train side of a fold of [cv5]. *)
Definition train_side (r : result (frame * frame * frame * frame))
  : result (frame * frame) :=
  '(X_train, _, y_train, _) <- r ;; Ok (X_train, y_train).

(** The column labels kept on the test side of a fold of [cv5]. *)
Definition test_columns (r : result (frame * frame * frame * frame))
  : result (list label) :=
  '(_, X_test, _, _) <- r ;; Ok (columns X_test).

(** A computation whose outcome does not depend on the process-wide random
    state it starts from. *)
Definition oblivious {L : Library} {A : Type} (m : M A) : Prop :=
  forall w1 w2 : world, fst (m w1) = fst (m w2).

End Spec.

(** ** Concrete inputs used by the examples below *)

Module Cases.

(** The correlation matrix of three columns [1,2,3], [5,5,5], [2,4,6]:
    the middle column is constant. *)
Definition corr_constant_middle : list (list pyfloat) :=
  [[Fin 1; NaN; Fin 1]; [NaN; NaN; NaN]; [Fin 1; NaN; Fin 1]].

(** The correlation matrix of two columns [1,2,3], [-1,-2,-3]. *)
Definition corr_opposite : list (list pyfloat) :=
  [[Fin 1; Fin (-1)]; [Fin (-1); Fin 1]].

(** Three samples of three features: [b] is constant and [c] is twice [a]. *)
Definition x_abc : frame :=
  mkFrame [Name "a"; Name "b"; Name "c"] (RangeIndex 3)
          [[Fin 1; Fin 5; Fin 2]; [Fin 2; Fin 5; Fin 4]; [Fin 3; Fin 5; Fin 6]].

(** Four samples of one feature, and labels orthogonal to it. *)
Definition x_single : frame :=
  mkFrame [Name "a"] (RangeIndex 4) [[Fin 1]; [Fin (-1)]; [Fin 1]; [Fin (-1)]].

Definition y_orthogonal : frame :=
  mkFrame [Name "a"] (RangeIndex 4) [[Fin 1]; [Fin 1]; [Fin (-1)]; [Fin (-1)]].

(** One sample of one feature. *)
Definition x_one : frame := mkFrame [Name "a"] (RangeIndex 1) [[Fin 1]].

(** Five samples of one feature; the label of the last one stands apart. *)
Definition x_five : frame :=
  mkFrame [Name "a"] (RangeIndex 5) [[Fin 1]; [Fin 2]; [Fin 3]; [Fin 4]; [Fin 5]].

Definition y_five : frame :=
  mkFrame [Name "a"] (RangeIndex 5) [[Fin 0]; [Fin 0]; [Fin 0]; [Fin 0]; [Fin (1 # 5)]].

(** A process state before the script runs. *)
Definition w0 : world (L := Example.library) := mkWorld (L := Example.library) 7 9.

(** Two samples of two features whose second sample has equal features,
    and the same data with another second sample. *)
Definition X_dup : frame :=
  mkFrame [Name "a"; Name "b"] (RangeIndex 2) [[Fin 1; Fin 2]; [Fin 3; Fin 3]].

Definition X_nodup : frame :=
  mkFrame [Name "a"; Name "b"] (RangeIndex 2) [[Fin 1; Fin 2]; [Fin 3; Fin 4]].

(** Five samples of two features, in hundredths, with the features
    themselves as labels: each label column is fitted exactly by its
    feature and no held-out error comes near 0.006. *)
Definition x_fit : frame :=
  mkFrame [Name "a"; Name "b"] (RangeIndex 5)
          [[Fin (1 # 100); Fin (3 # 100)]; [Fin (2 # 100); Fin (1 # 100)];
           [Fin (3 # 100); Fin (5 # 100)]; [Fin (4 # 100); Fin (2 # 100)];
           [Fin (5 # 100); Fin (4 # 100)]].

Definition y_fit : frame := x_fit.

(** The same features but for the third sample, whose two features are
    equal. *)
Definition x_fit_other : frame :=
  mkFrame [Name "a"; Name "b"] (RangeIndex 5)
          [[Fin (1 # 100); Fin (3 # 100)]; [Fin (2 # 100); Fin (1 # 100)];
           [Fin (3 # 100); Fin (3 # 100)]; [Fin (4 # 100); Fin (2 # 100)];
           [Fin (5 # 100); Fin (4 # 100)]].

(** One test sample of the two features. *)
Definition t_fit : frame :=
  mkFrame [Name "a"; Name "b"] (RangeIndex 1) [[Fin (2 # 100); Fin (3 # 100)]].

(** The fold of a 5-fold split of five samples that holds out the third. *)
Definition fold_middle : list nat * list nat := ([0; 1; 3; 4], [2]).

(** A 2 by 2 prediction array. *)
Definition predictions_2x2 : list (list pyfloat) :=
  [[Fin (1 # 2); Fin (1 # 4)]; [Fin 3; Fin (1 # 10000000)]].

End Cases.

(** ** The loaders (main.py lines 53-67, team15.py lines 48-59)

    [pd.read_csv] is not modelled: a loader is given the frame it reads. *)

Module Loaders.

(** [df.iloc[:, 1:]] *)
Definition iloc_columns_from_1 (df : frame) : frame :=
  mkFrame (skipn 1 (columns df)) (index df) (map (skipn 1) (values df)).

End Loaders.

Module Team17IO.
Import Loaders.

(** main.py lines 64-67, on the frames read from [train_file[0]],
    [train_file[1]] and [test_file]. *)
Definition load_data (read_x read_y read_tst : frame) : result (frame * frame * frame) :=
  x_tra <- drop_columns read_x (Name "ID") ;;
  y_tra <- drop_columns read_y (Name "ID") ;;
  x_tst <- drop_columns read_tst (Name "ID") ;;
  Ok (x_tra, y_tra, x_tst).

End Team17IO.

Module Team15IO.
Import Loaders.

(** team15.py lines 58-59, on the frame read from [csv]. *)
Definition load_data (read : frame) : frame := iloc_columns_from_1 read.

End Team15IO.

(** ** Vocabulary for the effects on the generators *)

Module Effects.

(** A computation that leaves the process-wide generators as they were,
    or at most re-seeds Python's generator with 1. *)
Definition settled {L : Library} {A : Type} (m : M A) : Prop :=
  forall w : world,
    snd (m w) = w \/ snd (m w) = mkWorld (np_random w) (seed_state 1).

(** A computation that leaves the process-wide generators as they were. *)
Definition untouched {L : Library} {A : Type} (m : M A) : Prop :=
  forall w : world, snd (m w) = w.

(** The computation returned a value. *)
Definition is_true_ok {A : Type} (r : result A) : Prop :=
  match r with
  | Ok _ => True
  | Raise _ => False
  end.

(** The length of the first of the three lists a cross-validation loop
    appends to. *)
Definition first_length (acc : list pyfloat * list pyfloat * list pyfloat) : nat :=
  length (fst (fst acc)).


(** A frame whose rows have one cell per column label. *)
Definition rectangular (df : frame) : Prop :=
  Forall (fun row => length row = shape1 df) (values df).

End Effects.

(** A frame as read from a CSV file with an identifier column. *)
Module MoreCases.

Definition read_csv_xy : frame :=
  mkFrame [Name "ID"; Name "f1"; Name "f2"] (RangeIndex 2)
          [[Fin 0; Fin 1; Fin 2]; [Fin 1; Fin 3; Fin 4]].

End MoreCases.

(** * Properties *)

(** ** Generic facts on lists and results *)

Section ListFacts.

Lemma existsb_seq_nat (P : nat -> bool) (a len : nat) :
  existsb P (seq a len) = true <-> exists i, a <= i < a + len /\ P i = true.
Proof.
  rewrite existsb_exists. split.
  - intros [i [Hin HP]]. apply in_seq in Hin. exists i. auto.
  - intros [i [Hr HP]]. exists i. split; [apply in_seq; lia | exact HP].
Qed.

Lemma filter_seq_sorted (P : nat -> bool) (a len c d : nat) :
  c < d -> d < length (filter P (seq a len)) ->
  nth c (filter P (seq a len)) 0 < nth d (filter P (seq a len)) 0.
Proof.
  revert a c d. induction len as [|len IH]; intros a c d Hcd Hd; simpl in *.
  - lia.
  - destruct (P a) eqn:HP; simpl in *.
    + destruct d as [|d]; [lia|]. destruct c as [|c].
      * assert (Hin : In (nth d (filter P (seq (S a) len)) 0) (filter P (seq (S a) len)))
          by (apply nth_In; lia).
        apply filter_In in Hin. destruct Hin as [Hin _]. apply in_seq in Hin. lia.
      * apply IH; lia.
    + apply IH; lia.
Qed.

End ListFacts.

(** ** Team 17: the correlation mask *)

Module Reducer.
Import Team17 Cases.

Lemma set_false_length (j : nat) (cols : list bool) :
  length (set_false j cols) = length cols.
Proof.
  revert j. induction cols as [|b t IH]; intros [|j]; simpl; auto.
Qed.

Lemma set_false_nth (j k : nat) (cols : list bool) :
  nth k (set_false j cols) false = if k =? j then false else nth k cols false.
Proof.
  revert j k. induction cols as [|b t IH]; intros j k.
  - destruct j, k; simpl; try reflexivity. now destruct (k =? j).
  - destruct j as [|j]; destruct k as [|k]; simpl; try reflexivity.
    apply IH.
Qed.

Lemma mark_length corr i cols j : length (mark corr i cols j) = length cols.
Proof.
  unfold mark. destruct (ge _ _); [destruct (nth j cols false)|]; auto using set_false_length.
Qed.

Lemma mark_nth corr i cols j k :
  nth k (mark corr i cols j) false =
  nth k cols false && negb ((k =? j) && ge (iloc corr i j) threshold_corr).
Proof.
  unfold mark. destruct (ge (iloc corr i j) threshold_corr) eqn:Hge.
  - destruct (nth j cols false) eqn:Hj.
    + rewrite set_false_nth. destruct (k =? j) eqn:Hk; simpl.
      * now rewrite andb_false_r.
      * now rewrite andb_true_r.
    + destruct (k =? j) eqn:Hk; simpl.
      * apply Nat.eqb_eq in Hk. subst. now rewrite Hj.
      * now rewrite andb_true_r.
  - now rewrite andb_false_r, andb_true_r.
Qed.

Lemma inner_loop_length corr i js cols :
  length (fold_left (mark corr i) js cols) = length cols.
Proof.
  revert cols. induction js as [|j js IH]; intros cols; simpl; auto.
  rewrite IH. apply mark_length.
Qed.

Lemma inner_loop_nth corr i js cols k :
  nth k (fold_left (mark corr i) js cols) false =
  nth k cols false &&
  negb (existsb (fun j => (k =? j) && ge (iloc corr i j) threshold_corr) js).
Proof.
  revert cols. induction js as [|j js IH]; intros cols; simpl.
  - now rewrite andb_true_r.
  - rewrite IH, mark_nth, negb_orb, andb_assoc. reflexivity.
Qed.

Lemma outer_loop_length corr n idxs cols :
  length (fold_left (fun c i => fold_left (mark corr i) (range (i + 1) n) c) idxs cols)
  = length cols.
Proof.
  revert cols. induction idxs as [|i idxs IH]; intros cols; simpl; auto.
  rewrite IH. apply inner_loop_length.
Qed.

Lemma outer_loop_nth corr n idxs cols k :
  nth k (fold_left (fun c i => fold_left (mark corr i) (range (i + 1) n) c) idxs cols) false =
  nth k cols false &&
  negb (existsb
          (fun i => existsb (fun j => (k =? j) && ge (iloc corr i j) threshold_corr)
                            (range (i + 1) n)) idxs).
Proof.
  revert cols. induction idxs as [|i idxs IH]; intros cols; simpl.
  - now rewrite andb_true_r.
  - rewrite IH, inner_loop_nth, negb_orb, andb_assoc. reflexivity.
Qed.

Lemma correlation_mask_length corr :
  length (correlation_mask corr) = length corr.
Proof.
  unfold correlation_mask. rewrite outer_loop_length. apply repeat_length.
Qed.

(** The mask entry of column [j] is cleared exactly when some column of
    lower index has a correlation of at least 0.9 with it. *)
Lemma correlation_mask_false corr j :
  j < length corr ->
  (nth j (correlation_mask corr) false = false <->
   exists i, i < j /\ ge (iloc corr i j) threshold_corr = true).
Proof.
  intros Hj. unfold correlation_mask. rewrite outer_loop_nth.
  rewrite nth_repeat_lt by assumption. simpl. rewrite negb_false_iff.
  unfold range. rewrite existsb_seq_nat. split.
  - intros [i [Hi Hex]]. apply existsb_seq_nat in Hex.
    destruct Hex as [j' [Hj' Hand]]. apply andb_true_iff in Hand.
    destruct Hand as [Heq Hge]. apply Nat.eqb_eq in Heq. subst j'.
    exists i. split; [lia | exact Hge].
  - intros [i [Hi Hge]]. exists i. split; [lia|].
    apply existsb_seq_nat. exists j. split; [lia|].
    rewrite Nat.eqb_refl. exact Hge.
Qed.

Lemma correlation_mask_true corr j :
  j < length corr ->
  (nth j (correlation_mask corr) false = true <->
   forall i, i < j -> ge (iloc corr i j) threshold_corr = false).
Proof.
  intros Hj. pose proof (correlation_mask_false corr Hj) as H. split.
  - intros Ht i Hi. destruct (ge (iloc corr i j) threshold_corr) eqn:Hge; auto.
    assert (nth j (correlation_mask corr) false = false) by (apply H; eauto).
    congruence.
  - intros Hall. destruct (nth j (correlation_mask corr) false) eqn:Hn; auto.
    destruct H as [H _]. destruct (H eq_refl) as [i [Hi Hge]].
    rewrite Hall in Hge by assumption. discriminate.
Qed.

Lemma mask_all_true corr :
  (forall i j, i < j -> j < length corr ->
     ge (iloc corr i j) threshold_corr = false) ->
  correlation_mask corr = repeat true (length corr).
Proof.
  intros Hall. apply nth_ext with (d := false) (d' := false).
  - now rewrite correlation_mask_length, repeat_length.
  - intros k Hk. rewrite correlation_mask_length in Hk.
    rewrite nth_repeat_lt by assumption.
    apply correlation_mask_true; [assumption|].
    intros i Hi. now apply Hall.
Qed.

(** C2, as stated, fails: the test of line 98 is on the signed correlation.
    Two perfectly anti-correlated columns have [|corr| = 1 >= 0.9], and the
    higher-index column is not removed. *)
Lemma absolute_threshold_counterexample :
  ge (fabs (iloc corr_opposite 0 1)) threshold_corr = true /\
  ge (iloc corr_opposite 0 1) threshold_corr = false /\
  correlation_mask corr_opposite = [true; true].
Proof. repeat split; reflexivity. Qed.

(** C2 (amended): pairs [(i, j)] with [i < j] are processed in index order
    and one step clears [columns[j]] exactly when [corr(i, j) >= 0.9]
    (signed) and [j] is still set; hence column [j] is removed exactly when
    some lower-index column has a correlation of at least 0.9 with it; of
    two columns of correlation 1 the higher-index one is removed; and when
    every pair is below 0.9 all columns survive. *)
Theorem signed_threshold_rule (corr : list (list pyfloat)) :
  (forall i j cols,
      mark corr i cols j =
      if ge (iloc corr i j) threshold_corr && nth j cols false
      then set_false j cols else cols) /\
  (forall j, j < length corr ->
      (nth j (correlation_mask corr) false = false <->
       exists i, i < j /\ ge (iloc corr i j) threshold_corr = true)) /\
  (forall i j, i < j -> j < length corr -> iloc corr i j = Fin 1 ->
      nth j (correlation_mask corr) false = false) /\
  ((forall i j, i < j -> j < length corr ->
       ge (iloc corr i j) threshold_corr = false) ->
   correlation_mask corr = repeat true (length corr)).
Proof.
  split; [|split; [|split]].
  - intros i j cols. unfold mark.
    destruct (ge (iloc corr i j) threshold_corr); simpl; reflexivity.
  - intros j Hj. now apply correlation_mask_false.
  - intros i j Hij Hj Hone. apply correlation_mask_false; [assumption|].
    exists i. split; [assumption|]. rewrite Hone. reflexivity.
  - apply mask_all_true.
Qed.

Lemma signed_threshold_rule_witness :
  2 < length corr_constant_middle /\
  nth 2 (correlation_mask corr_constant_middle) false = false.
Proof.
  split; [simpl; lia|].
  apply (proj1 (proj2 (proj2 (signed_threshold_rule corr_constant_middle))) 0 2);
    [lia | simpl; lia | reflexivity].
Defined.

(** C7, as stated, fails: with columns [1,2,3], [5,5,5], [2,4,6] the pair
    (1, 2) has an undefined correlation, and column 2 is removed all the
    same, on account of column 0. *)
Lemma nan_pair_counterexample :
  iloc corr_constant_middle 1 2 = NaN /\
  nth 2 (correlation_mask corr_constant_middle) false = false.
Proof. split; reflexivity. Qed.

(** C7 (amended): the reducer is a total function of the correlation
    matrix; a pair whose correlation is [NaN] fails the [>= 0.9] test and
    clears nothing; a column whose correlations with all lower-index columns
    are [NaN] (a constant column) is retained; and the other column of a
    [NaN] pair is removed exactly when some further lower-index column has a
    correlation of at least 0.9 with it. *)
Theorem nan_pair_marks_nothing (corr : list (list pyfloat)) :
  length (correlation_mask corr) = length corr /\
  (forall i j cols, iloc corr i j = NaN ->
      ge (iloc corr i j) threshold_corr = false /\ mark corr i cols j = cols) /\
  (forall c, c < length corr -> (forall i, i < c -> iloc corr i c = NaN) ->
      nth c (correlation_mask corr) false = true) /\
  (forall c j, c < j -> j < length corr -> iloc corr c j = NaN ->
      (nth j (correlation_mask corr) false = false <->
       exists i, i < j /\ i <> c /\ ge (iloc corr i j) threshold_corr = true)).
Proof.
  split; [apply correlation_mask_length|split; [|split]].
  - intros i j cols Hnan. unfold mark. rewrite Hnan. split; reflexivity.
  - intros c Hc Hall. apply correlation_mask_true; [assumption|].
    intros i Hi. rewrite (Hall i Hi). reflexivity.
  - intros c j Hcj Hj Hnan. rewrite correlation_mask_false by assumption. split.
    + intros [i [Hi Hge]]. exists i. repeat split; try assumption.
      intros ->. rewrite Hnan in Hge. discriminate.
    + intros [i [Hi [_ Hge]]]. exists i. split; assumption.
Qed.

Lemma nan_pair_marks_nothing_witness :
  1 < length corr_constant_middle /\
  nth 1 (correlation_mask corr_constant_middle) false = true.
Proof.
  split; [simpl; lia|].
  apply (proj1 (proj2 (proj2 (nan_pair_marks_nothing corr_constant_middle))) 1);
    [simpl; lia|].
  intros [|[|i]] Hi; [reflexivity | lia | lia].
Defined.

End Reducer.

(** ** Frames: label-based selection *)

Module FrameFacts.

Lemma label_eqb_eq (a b : label) : label_eqb a b = true <-> a = b.
Proof.
  destruct a as [s|n], b as [t|m]; simpl; split; intros H; try discriminate.
  - apply String.eqb_eq in H. now subst.
  - inversion H. apply String.eqb_refl.
  - apply Nat.eqb_eq in H. now subst.
  - inversion H. apply Nat.eqb_refl.
Qed.

Lemma nth_map_lt (A B : Type) (f : A -> B) (l : list A) (i : nat) (d : A) (d' : B) :
  i < length l -> nth i (map f l) d' = f (nth i l d).
Proof.
  intros Hi. rewrite (nth_indep (map f l) d' (f d)) by now rewrite length_map.
  apply map_nth.
Qed.

Lemma map_nth_seq_id (A : Type) (l : list A) (d : A) :
  map (fun p => nth p l d) (seq 0 (length l)) = l.
Proof.
  apply nth_ext with (d := d) (d' := d).
  - now rewrite length_map, length_seq.
  - intros n Hn. rewrite length_map, length_seq in Hn.
    rewrite (nth_map_lt (fun p => nth p l d) (seq 0 (length l)) 0 d)
      by now rewrite length_seq.
    now rewrite seq_nth.
Qed.

Lemma singleton_of_nodup (l : list nat) (p : nat) :
  NoDup l -> (forall q, In q l <-> q = p) -> l = [p].
Proof.
  intros Hnd Hin. destruct l as [|a l].
  - exfalso. apply (proj2 (Hin p) eq_refl).
  - assert (a = p) by (apply Hin; now left). subst a.
    destruct l as [|b l]; [reflexivity|].
    assert (b = p) by (apply Hin; right; now left). subst b.
    inversion Hnd as [|? ? Hnotin _]. exfalso. apply Hnotin. now left.
Qed.

Lemma positions_of_In (nm : label) (have : list label) (q : nat) :
  In q (positions_of nm have) <-> q < length have /\ nth q have (Pos 0) = nm.
Proof.
  unfold positions_of. rewrite filter_In, in_seq, label_eqb_eq. intuition lia.
Qed.

Lemma positions_of_nodup (have : list label) (p : nat) :
  NoDup have -> p < length have ->
  positions_of (nth p have (Pos 0)) have = [p].
Proof.
  intros Hnd Hp. apply singleton_of_nodup.
  - unfold positions_of. apply NoDup_filter, seq_NoDup.
  - intros q. rewrite positions_of_In. split.
    + intros [Hq Heq]. now apply (proj1 (NoDup_nth have (Pos 0)) Hnd).
    + intros ->. auto.
Qed.

Lemma indexer_nodup (have : list label) (ps : list nat) :
  NoDup have -> Forall (fun p => p < length have) ps ->
  indexer (map (fun p => nth p have (Pos 0)) ps) have = Ok ps.
Proof.
  intros Hnd Hall. induction Hall as [|p ps Hp Hps IH]; simpl; [reflexivity|].
  rewrite positions_of_nodup by assumption. rewrite IH. reflexivity.
Qed.

(** A label the frame carries once is found at its position, and what
    [indexer] returns reads back the requested labels. *)
Lemma indexer_labels (have names : list label) (qs : list nat) :
  NoDup have -> indexer names have = Ok qs ->
  map (fun q => nth q have (Pos 0)) qs = names /\
  Forall (fun q => q < length have) qs.
Proof.
  intros Hnd. revert qs. induction names as [|nm names IH]; intros qs H; simpl in H.
  - inversion H. simpl. auto.
  - destruct (positions_of nm have) as [|q rest] eqn:Hpos; [discriminate|].
    assert (Hq : q < length have /\ nth q have (Pos 0) = nm)
      by (apply positions_of_In; rewrite Hpos; now left).
    destruct Hq as [Hq Hnm]. subst nm.
    rewrite positions_of_nodup in Hpos by assumption.
    inversion Hpos; subst rest.
    destruct (indexer names have) as [qs'|e] eqn:Hidx; simpl in H; [|discriminate].
    inversion H; subst qs. destruct (IH qs' eq_refl) as [Hm Hf].
    simpl. split; [now rewrite Hm | now constructor].
Qed.

Lemma take_positions_all (row : list pyfloat) :
  take_positions (seq 0 (length row)) row = row.
Proof. apply map_nth_seq_id. Qed.

Lemma take_positions_length (ps : list nat) (row : list pyfloat) :
  length (take_positions ps row) = length ps.
Proof. apply length_map. Qed.

(** Selecting all the labels of a frame whose labels are distinct and
    whose rows have one cell per label gives the frame back. *)
Lemma getitem_self (df : frame) :
  NoDup (columns df) ->
  Forall (fun row => length row = shape1 df) (values df) ->
  getitem df (columns df) = Ok df.
Proof.
  intros Hnd Hrows. unfold getitem.
  assert (Hidx : indexer (columns df) (columns df) = Ok (seq 0 (shape1 df))).
  { rewrite <- (map_nth_seq_id (columns df) (Pos 0)) at 1.
    apply indexer_nodup; [assumption|].
    apply Forall_forall. intros p Hp. apply in_seq in Hp. unfold shape1 in Hp. lia. }
  rewrite Hidx. cbn [bind]. unfold shape1. rewrite map_nth_seq_id.
  replace (map (take_positions (seq 0 (length (columns df)))) (values df))
    with (values df).
  - now destruct df.
  - symmetry. rewrite <- (map_id (values df)) at 2. apply map_ext_in.
    intros row Hin. rewrite Forall_forall in Hrows. unfold shape1 in Hrows.
    rewrite <- (Hrows row Hin). apply take_positions_all.
Qed.

Lemma NoDup_map_nth (have : list label) (ps : list nat) :
  NoDup have -> NoDup ps -> Forall (fun p => p < length have) ps ->
  NoDup (map (fun p => nth p have (Pos 0)) ps).
Proof.
  intros Hh Hps Hall. apply NoDup_map_NoDup_ForallPairs; [|assumption].
  intros p q Hp Hq Heq. rewrite Forall_forall in Hall.
  apply (proj1 (NoDup_nth have (Pos 0)) Hh); auto.
Qed.

End FrameFacts.

(** ** Team 17: the Feature Reducer on frames *)

Module ReducerFrames.
Import Team17 FrameFacts Reducer.

Section WithLibrary.
Context {L : Library}.

Lemma corr_length (x : frame) : length (DataFrame_corr x) = shape1 x.
Proof. unfold DataFrame_corr. now rewrite !length_map, length_seq. Qed.

Lemma corr_iloc (x : frame) (i j : nat) :
  i < shape1 x -> j < shape1 x ->
  iloc (DataFrame_corr x) i j =
  pearson (column_of (values x) i) (column_of (values x) j).
Proof.
  intros Hi Hj. unfold iloc, DataFrame_corr.
  set (cols := map (column_of (values x)) (seq 0 (shape1 x))).
  assert (Hlen : length cols = shape1 x)
    by (unfold cols; now rewrite length_map, length_seq).
  assert (Hcol : forall k, k < shape1 x -> nth k cols [] = column_of (values x) k).
  { intros k Hk. unfold cols.
    rewrite (nth_map_lt (column_of (values x)) (seq 0 (shape1 x)) 0 [])
      by now rewrite length_seq.
    now rewrite seq_nth. }
  rewrite (nth_map_lt (fun a => map (pearson a) cols) cols [] []) by lia.
  rewrite (nth_map_lt (pearson (nth i cols [])) cols [] NaN) by lia.
  now rewrite !Hcol.
Qed.

Lemma selected_positions_spec (mask : list bool) (p : nat) :
  In p (selected_positions mask) <-> p < length mask /\ nth p mask false = true.
Proof.
  unfold selected_positions. rewrite filter_In, in_seq. intuition lia.
Qed.

Lemma selected_positions_all (k : nat) :
  selected_positions (repeat true k) = seq 0 k.
Proof.
  unfold selected_positions. rewrite repeat_length.
  apply forallb_filter_id. apply forallb_forall. intros p Hp.
  apply in_seq in Hp. apply nth_repeat_lt. lia.
Qed.

Lemma selected_in_range (x : frame) :
  Forall (fun p => p < shape1 x)
         (selected_positions (correlation_mask (DataFrame_corr x))).
Proof.
  apply Forall_forall. intros p Hp. apply selected_positions_spec in Hp.
  rewrite correlation_mask_length, corr_length in Hp. tauto.
Qed.

(** The frame [t0] of line 104. *)
Lemma reducer_t0 (x : frame) :
  NoDup (columns x) ->
  let ps := selected_positions (correlation_mask (DataFrame_corr x)) in
  getitem x (labels_at (columns x) (correlation_mask (DataFrame_corr x))) =
  Ok (mkFrame (map (fun p => nth p (columns x) (Pos 0)) ps) (index x)
              (map (take_positions ps) (values x))).
Proof.
  intros Hnd ps. unfold getitem, labels_at. fold ps.
  rewrite indexer_nodup; [reflexivity | assumption | apply selected_in_range].
Qed.

Lemma column_of_take (ps : list nat) (rows : list (list pyfloat)) (c : nat) :
  c < length ps ->
  column_of (map (take_positions ps) rows) c = column_of rows (nth c ps 0).
Proof.
  intros Hc. unfold column_of. rewrite map_map. apply map_ext. intros row.
  unfold take_positions.
  now rewrite (nth_map_lt (fun p => nth p row NaN) ps 0 NaN).
Qed.

(** On the reduced frame no pair reaches the threshold any more. *)
Lemma reduced_mask_all_true (x : frame) (names : list label) (idx : list label) :
  let ps := selected_positions (correlation_mask (DataFrame_corr x)) in
  length names = length ps ->
  correlation_mask
    (DataFrame_corr (mkFrame names idx (map (take_positions ps) (values x)))) =
  repeat true (length ps).
Proof.
  intros ps Hnames.
  set (t0 := mkFrame names idx (map (take_positions ps) (values x))).
  assert (Hs : shape1 t0 = length ps) by exact Hnames.
  rewrite <- Hs, <- corr_length. apply mask_all_true.
  intros c d Hcd Hd. rewrite corr_length, Hs in Hd.
  rewrite corr_iloc by lia. simpl.
  rewrite !column_of_take by lia.
  pose proof (selected_in_range x) as Hrange. rewrite Forall_forall in Hrange.
  assert (Hinc : In (nth c ps 0) ps) by (apply nth_In; lia).
  assert (Hind : In (nth d ps 0) ps) by (apply nth_In; lia).
  rewrite <- corr_iloc by (apply Hrange; assumption).
  apply selected_positions_spec in Hind. destruct Hind as [Hlt Htrue].
  rewrite correlation_mask_length in Hlt.
  apply (proj1 (correlation_mask_true (DataFrame_corr x) Hlt) Htrue).
  apply filter_seq_sorted; assumption.
Qed.

(** C8: the Feature Reducer is idempotent.  On frames with distinct column
    labels, running it on its own output [(t0, t1_temp)] clears no mask
    entry and gives the same labels and the same two frames. *)
Theorem feature_reducer_idempotent (x y : frame) (sel : list label) (t0 t1 : frame) :
  NoDup (columns x) -> NoDup (columns y) ->
  feature_reducer x y = Ok (sel, t0, t1) ->
  correlation_mask (DataFrame_corr t0) = repeat true (shape1 t0) /\
  feature_reducer t0 t1 = Ok (sel, t0, t1).
Proof.
  intros Hx Hy Hrun. unfold feature_reducer in Hrun.
  rewrite (reducer_t0 x Hx) in Hrun. cbn [bind] in Hrun.
  set (ps := selected_positions (correlation_mask (DataFrame_corr x))) in *.
  unfold labels_at in Hrun. fold ps in Hrun.
  set (names := map (fun p => nth p (columns x) (Pos 0)) ps) in *.
  unfold getitem in Hrun.
  destruct (indexer names (columns y)) as [qs|e] eqn:Hidx; cbn [bind] in Hrun;
    [|discriminate].
  destruct (indexer_labels names Hy Hidx) as [Hlab Hqs].
  rewrite Hlab in Hrun. inversion Hrun; subst sel t0 t1; clear Hrun.
  assert (Hlen : length names = length ps) by (unfold names; apply length_map).
  assert (Hnames : NoDup names).
  { unfold names. apply NoDup_map_nth; [assumption | | apply selected_in_range].
    unfold ps, selected_positions. apply NoDup_filter, seq_NoDup. }
  assert (Hmask : correlation_mask
            (DataFrame_corr (mkFrame names (index x) (map (take_positions ps) (values x))))
          = repeat true (length ps))
    by (apply reduced_mask_all_true; assumption).
  split.
  - unfold shape1. simpl. rewrite Hlen. exact Hmask.
  - assert (Hg0 : getitem (mkFrame names (index x) (map (take_positions ps) (values x)))
                         names
                 = Ok (mkFrame names (index x) (map (take_positions ps) (values x)))).
    { apply (getitem_self (mkFrame names (index x) (map (take_positions ps) (values x)))).
      - assumption.
      - apply Forall_forall. intros row Hin. apply in_map_iff in Hin.
        destruct Hin as [r [<- _]]. rewrite take_positions_length.
        unfold shape1. simpl. now rewrite Hlen. }
    assert (Hg1 : getitem (mkFrame names (index y) (map (take_positions qs) (values y)))
                         names
                 = Ok (mkFrame names (index y) (map (take_positions qs) (values y)))).
    { apply (getitem_self (mkFrame names (index y) (map (take_positions qs) (values y)))).
      - assumption.
      - apply Forall_forall. intros row Hin. apply in_map_iff in Hin.
        destruct Hin as [r [<- _]]. rewrite take_positions_length.
        unfold shape1. simpl. rewrite <- Hlab. now rewrite length_map. }
    unfold feature_reducer. rewrite Hmask. unfold labels_at.
    rewrite selected_positions_all. cbv zeta. cbn [columns].
    rewrite <- Hlen, !map_nth_seq_id.
    rewrite Hg0. cbn [bind]. rewrite Hg1. reflexivity.
Qed.

End WithLibrary.

Lemma feature_reducer_idempotent_witness :
  let sel := [Name "a"; Name "b"] in
  let t0 := mkFrame sel (RangeIndex 3)
                    [[Fin 1; Fin 5]; [Fin 2; Fin 5]; [Fin 3; Fin 5]] in
  feature_reducer (L := Example.library) Cases.x_abc Cases.x_abc = Ok (sel, t0, t0) /\
  feature_reducer (L := Example.library) t0 t0 = Ok (sel, t0, t0).
Proof.
  intros sel t0.
  assert (Hnd : NoDup (columns Cases.x_abc)).
  { repeat constructor; simpl; intuition discriminate. }
  assert (Hrun : feature_reducer (L := Example.library) Cases.x_abc Cases.x_abc
                 = Ok (sel, t0, t0)) by reflexivity.
  split; [exact Hrun|].
  exact (proj2 (@feature_reducer_idempotent Example.library _ _ _ _ _ Hnd Hnd Hrun)).
Defined.

End ReducerFrames.

(** ** Team 17: the Backward Eliminator *)

Module Eliminator.
Import Team17.

Lemma for_each_fixed (A S : Type) (body : S -> A -> result S) (l : list A) (s : S) :
  (forall a, In a l -> body s a = Ok s \/ exists e, body s a = Raise e) ->
  for_each body l s = Ok s \/ exists e, for_each body l s = Raise e.
Proof.
  induction l as [|a l IH]; intros Hbody; simpl.
  - now left.
  - destruct (Hbody a (or_introl eq_refl)) as [Hok | [e He]].
    + rewrite Hok. simpl. apply IH. intros b Hb. apply Hbody. now right.
    + rewrite He. simpl. right. now exists e.
Qed.

Lemma gt_feq_self (p t : pyfloat) : gt p t = true -> feq p p = true.
Proof.
  destruct p as [|q]; simpl; [discriminate|]. intros _.
  apply Qeq_bool_iff. reflexivity.
Qed.

Section WithLibrary.
Context {L : Library}.

(** One pass: the p-value of the i-th label column regressed on the i-th
    feature column decides; above 0.05 the inner loop reaches
    [np.delete(x_temp, 0, 1)] on the 1-D array [x_temp], which raises. *)
Lemma eliminate_pass_outcome (numVars : nat) (y : ndarray)
      (rows : list (list pyfloat)) (cols : list label) (i : nat) :
  i < numVars ->
  eliminate_pass numVars y (Arr2 rows, cols) i =
  (Y_temp <- slice_column y i ;;
   x_temp <- slice_column (Arr2 rows) i ;;
   p <- ols_pvalue Y_temp x_temp ;;
   if gt p threshold_pvalue
   then Raise AxisError
   else Ok (Arr2 rows, cols)).
Proof.
  intros Hi. unfold eliminate_pass.
  destruct (slice_column y i) as [Y_temp|e]; [|reflexivity].
  destruct (slice_column (Arr2 rows) i) as [x_temp|e]; [|reflexivity].
  cbn [bind]. destruct (ols_pvalue Y_temp x_temp) as [p|e]; [|reflexivity].
  cbn [bind py_max fold_left].
  destruct (gt p threshold_pvalue) eqn:Hgt; [|reflexivity].
  unfold range. replace (numVars - i - 0) with (S (numVars - i - 1)) by lia.
  cbn [seq for_each eliminate_step getitem1 nth_error bind].
  rewrite (gt_feq_self _ _ Hgt). reflexivity.
Qed.

(** The eliminator either hands its input on unchanged or raises. *)
Lemma backward_elimination_unchanged (rows : list (list pyfloat)) (y : ndarray)
      (cols : list label) :
  backward_elimination (Arr2 rows) y cols = Ok (Arr2 rows, cols) \/
  exists e, backward_elimination (Arr2 rows) y cols = Raise e.
Proof.
  unfold backward_elimination.
  destruct (len_first_row (Arr2 rows)) as [numVars|e] eqn:Hlen; cbn [bind].
  - apply for_each_fixed. intros i Hin. unfold range in Hin. apply in_seq in Hin.
    rewrite eliminate_pass_outcome by lia.
    destruct (slice_column y i) as [Y_temp|e]; [|right; now exists e].
    destruct (slice_column (Arr2 rows) i) as [x_temp|e]; [|right; now exists e].
    cbn [bind]. destruct (ols_pvalue Y_temp x_temp) as [p|e]; [|right; now exists e].
    cbn [bind]. destruct (gt _ _); [right; now exists AxisError | now left].
  - right. now exists e.
Qed.

(** A pass that raises makes the eliminator raise. *)
Lemma backward_elimination_pass_raises (rows : list (list pyfloat)) (y : ndarray)
      (cols : list label) (numVars i : nat) :
  len_first_row (Arr2 rows) = Ok numVars ->
  i < numVars ->
  (exists e, eliminate_pass numVars y (Arr2 rows, cols) i = Raise e) ->
  exists e, backward_elimination (Arr2 rows) y cols = Raise e.
Proof.
  intros Hlen Hi [e0 Hraise].
  destruct (backward_elimination_unchanged rows y cols) as [Hok|Hr];
    [exfalso | exact Hr].
  unfold backward_elimination in Hok. rewrite Hlen in Hok. cbn [bind] in Hok.
  unfold range in Hok. rewrite Nat.sub_0_r in Hok.
  replace numVars with (i + S (numVars - i - 1)) in Hok at 2 by lia.
  rewrite seq_app in Hok.
  assert (Hsplit : forall (l1 l2 : list nat) s,
             for_each (eliminate_pass numVars y) (l1 ++ l2) s =
             (s' <- for_each (eliminate_pass numVars y) l1 s ;;
              for_each (eliminate_pass numVars y) l2 s')).
  { induction l1 as [|a l1 IH]; intros l2 s; simpl; [reflexivity|].
    destruct (eliminate_pass numVars y s a); simpl; [apply IH | reflexivity]. }
  rewrite Hsplit in Hok.
  assert (Hbody : forall a, In a (seq 0 i) ->
             eliminate_pass numVars y (Arr2 rows, cols) a = Ok (Arr2 rows, cols) \/
             exists e, eliminate_pass numVars y (Arr2 rows, cols) a = Raise e).
  { clear Hraise. intros a Hin. apply in_seq in Hin.
    rewrite eliminate_pass_outcome by lia.
    destruct (slice_column y a) as [Ya|e1]; [|right; exists e1; reflexivity].
    destruct (slice_column (Arr2 rows) a) as [xa|e1]; [|right; exists e1; reflexivity].
    cbn [bind]. destruct (ols_pvalue Ya xa) as [pa|e1]; [|right; exists e1; reflexivity].
    cbn [bind]. destruct (gt _ _); [right; exists AxisError; reflexivity | now left]. }
  destruct (@for_each_fixed _ _ _ _ _ Hbody) as [Hpre | [e1 Hpre]].
  - rewrite Hpre in Hok. change (0 + i) with i in Hok.
    cbn [bind seq for_each] in Hok. rewrite Hraise in Hok. discriminate.
  - rewrite Hpre in Hok. discriminate.
Qed.

(** Whenever some feature's p-value exceeds 0.05, the eliminator raises:
    no column is ever removed. *)
Lemma backward_elimination_raises (rows : list (list pyfloat)) (y : ndarray)
      (cols : list label) (numVars i : nat) (Y_temp x_temp : list pyfloat)
      (p : pyfloat) :
  len_first_row (Arr2 rows) = Ok numVars ->
  i < numVars ->
  slice_column y i = Ok Y_temp ->
  slice_column (Arr2 rows) i = Ok x_temp ->
  ols_pvalue Y_temp x_temp = Ok p ->
  gt p threshold_pvalue = true ->
  exists e, backward_elimination (Arr2 rows) y cols = Raise e.
Proof.
  intros Hlen Hi HY Hx Hp Hgt.
  apply (@backward_elimination_pass_raises rows y cols numVars i Hlen Hi).
  exists AxisError. rewrite eliminate_pass_outcome by assumption.
  rewrite HY, Hx. cbn [bind]. rewrite Hp. cbn [bind]. now rewrite Hgt.
Qed.

(** So does it when the regression itself raises. *)
Lemma backward_elimination_ols_raises (rows : list (list pyfloat)) (y : ndarray)
      (cols : list label) (numVars i : nat) (Y_temp x_temp : list pyfloat)
      (e : exn) :
  len_first_row (Arr2 rows) = Ok numVars ->
  i < numVars ->
  slice_column y i = Ok Y_temp ->
  slice_column (Arr2 rows) i = Ok x_temp ->
  ols_pvalue Y_temp x_temp = Raise e ->
  exists e', backward_elimination (Arr2 rows) y cols = Raise e'.
Proof.
  intros Hlen Hi HY Hx Hp.
  apply (@backward_elimination_pass_raises rows y cols numVars i Hlen Hi).
  exists e. rewrite eliminate_pass_outcome by assumption.
  rewrite HY, Hx. cbn [bind]. now rewrite Hp.
Qed.

End WithLibrary.

(** C3 (code at a failing input): one feature [a = 1,-1,1,-1] whose label
    column [1,1,-1,-1] is orthogonal to it, so the slope is zero and its
    p-value is 1 > 0.05.  Instead of removing the column, [preprocessing]
    raises [AxisError] at [np.delete(x_temp, j, 1)]: [x_temp] has one
    dimension. *)
Theorem backward_eliminator_raises_on_insignificant_feature :
  Example.pvalue_exact (column_of (values Cases.y_orthogonal) 0)
                       (column_of (values Cases.x_single) 0) = Ok (Fin 1) /\
  forall w : world (L := Example.library),
    preprocessing (L := Example.library)
                  Cases.x_single Cases.y_orthogonal Cases.x_single w
    = (Raise AxisError, w).
Proof. split; [reflexivity | intros w; reflexivity]. Qed.

End Eliminator.

(** ** Team 17: the Outlier Filter *)

Module Outliers.
Import Team17 Spec17 FrameFacts.

Lemma mem_In (k : nat) (l : list nat) : mem k l = true <-> In k l.
Proof.
  unfold mem. rewrite existsb_exists. split.
  - intros [j [Hin Heq]]. apply Nat.eqb_eq in Heq. now subst.
  - intros Hin. exists k. split; [assumption | apply Nat.eqb_refl].
Qed.

Lemma mem_filter (f : nat -> bool) (l : list nat) (k : nat) :
  In k l -> mem k (filter f l) = f k.
Proof.
  intros Hin. destruct (f k) eqn:Hf.
  - apply mem_In, filter_In. auto.
  - destruct (mem k (filter f l)) eqn:Hm; [|reflexivity].
    apply mem_In, filter_In in Hm. destruct Hm as [_ Hm]. congruence.
Qed.

Lemma existsb_Pos (k : nat) (order : list nat) :
  existsb (label_eqb (Pos k)) (map Pos order) = mem k order.
Proof.
  induction order as [|o order IH]; simpl; [reflexivity|]. now rewrite IH.
Qed.

Lemma filter_mem_single (k n : nat) :
  k < n -> filter (fun i => mem i [k]) (seq 0 n) = [k].
Proof.
  intros Hk. apply singleton_of_nodup.
  - apply NoDup_filter, seq_NoDup.
  - intros q. rewrite filter_In, in_seq, mem_In. simpl. intuition lia.
Qed.

(** *** The leave-one-out split *)

Lemma blocks_ones (sizes : list nat) (a : nat) :
  (forall s, In s sizes -> s = 1) ->
  blocks sizes (seq a (length sizes)) = map (fun k => [k]) (seq a (length sizes)).
Proof.
  revert a. induction sizes as [|s sizes IH]; intros a Hall; simpl; [reflexivity|].
  rewrite (Hall s (or_introl eq_refl)). simpl. f_equal.
  apply IH. intros s' Hs'. apply Hall. now right.
Qed.

Lemma fold_sizes_loo (n : nat) :
  1 <= n -> forall s, In s (fold_sizes n n) -> s = 1.
Proof.
  intros Hn s Hin. unfold fold_sizes in Hin. apply in_map_iff in Hin.
  destruct Hin as [k [Hs _]]. subst s.
  rewrite Nat.div_same by lia. rewrite Nat.Div0.mod_same. reflexivity.
Qed.

Lemma fold_sizes_length (n_splits n : nat) : length (fold_sizes n_splits n) = n_splits.
Proof. unfold fold_sizes. now rewrite length_map, length_seq. Qed.

Section WithLibrary.
Context {L : Library}.

(** With [n >= 2] samples the unshuffled [n]-fold split has [n] folds and
    the k-th fold holds out exactly position [k]. *)
Lemma KFold_loo (n : nat) (w : world) :
  2 <= n ->
  KFold_split n None false n w =
  (Ok (map (fun k => (all_but n k, [k])) (seq 0 n)), w).
Proof.
  intros Hn. unfold KFold_split.
  replace (n <=? 1) with false by (symmetry; apply Nat.leb_gt; lia).
  replace (n <? n) with false by (symmetry; apply Nat.ltb_irrefl).
  cbn [negb andb]. f_equal. f_equal.
  pose proof (blocks_ones (fold_sizes n n) 0 (fold_sizes_loo (n := n) ltac:(lia))) as Hb.
  rewrite fold_sizes_length in Hb. rewrite Hb, map_map.
  apply map_ext_in. intros k Hk. apply in_seq in Hk. unfold fold_of, all_but.
  now rewrite filter_mem_single by lia.
Qed.

Lemma KFold_too_small (n : nat) (w : world) :
  n <= 1 -> KFold_split n None false n w = (Raise ValueError, w).
Proof.
  intros Hn. unfold KFold_split.
  now replace (n <=? 1) with true by (symmetry; apply Nat.leb_le; lia).
Qed.

(** *** The loop over the folds *)

Lemma iloc_rows_in_range (df : frame) (rows : list nat) :
  (forall r, In r rows -> r < shape0 df) ->
  iloc_rows df rows = Ok (take_rows df rows).
Proof.
  intros Hall. unfold iloc_rows.
  replace (forallb (fun r => r <? shape0 df) rows) with true; [reflexivity|].
  symmetry. apply forallb_forall. intros r Hr. apply Nat.ltb_lt. auto.
Qed.

Lemma all_but_in_range (n k r : nat) : In r (all_but n k) -> r < n.
Proof.
  unfold all_but. rewrite filter_In, in_seq. lia.
Qed.

Lemma fold_error_loo (x y : frame) (k : nat) :
  k < shape0 x -> shape0 y = shape0 x ->
  fold_error x y (all_but (shape0 x) k, [k]) = held_out_error x y k.
Proof.
  intros Hk Hy. unfold fold_error.
  rewrite (iloc_rows_in_range x (all_but (shape0 x) k))
    by (intros r Hr; now apply all_but_in_range in Hr).
  rewrite (iloc_rows_in_range y (all_but (shape0 x) k))
    by (intros r Hr; apply all_but_in_range in Hr; lia).
  rewrite (iloc_rows_in_range x [k]) by (intros r [<-|[]]; lia).
  rewrite (iloc_rows_in_range y [k]) by (intros r [<-|[]]; lia).
  reflexivity.
Qed.

(** Fold after fold, [cv_index] is the held-out position, so what is
    appended to [error_samples] is the position of the flagged row. *)
Lemma loo_loop (x y : frame) (m c : nat) (acc : list nat) :
  shape0 y = shape0 x -> c + m <= shape0 x ->
  (forall k, c <= k < c + m -> exists error, held_out_error x y k = Ok error) ->
  for_each (loo_body x y)
           (map (fun k => (all_but (shape0 x) k, [k])) (seq c m)) (acc, c) =
  Ok (acc ++ filter (flagged x y) (seq c m), c + m).
Proof.
  intros Hy. revert c acc. induction m as [|m IH]; intros c acc Hc Hret.
  - simpl. now rewrite app_nil_r, Nat.add_0_r.
  - cbn [seq map for_each]. unfold loo_body at 1.
    rewrite fold_error_loo by (assumption || lia).
    destruct (Hret c ltac:(lia)) as [error He]. rewrite He. cbn [bind].
    rewrite Nat.add_1_r. rewrite IH by (try lia; intros k Hk; apply Hret; lia).
    f_equal. f_equal.
    + cbn [filter]. unfold flagged at 2. rewrite He.
      destruct (gt error threshold_error);
        [now rewrite <- app_assoc | reflexivity].
    + lia.
Qed.

(** The loop returns only if every fold's fit, prediction and error
    returned. *)
Lemma loo_loop_returns (x y : frame) (m c : nat) (acc : list nat)
      (r : list nat * nat) :
  shape0 y = shape0 x -> c + m <= shape0 x ->
  for_each (loo_body x y)
           (map (fun k => (all_but (shape0 x) k, [k])) (seq c m)) (acc, c) = Ok r ->
  forall k, c <= k < c + m -> exists error, held_out_error x y k = Ok error.
Proof.
  intros Hy. revert c acc. induction m as [|m IH]; intros c acc Hc Hrun k Hk; [lia|].
  cbn [seq map for_each] in Hrun. unfold loo_body at 1 in Hrun.
  rewrite fold_error_loo in Hrun by (assumption || lia).
  destruct (held_out_error x y c) as [error|e] eqn:He; [|discriminate].
  cbn [bind] in Hrun. rewrite Nat.add_1_r in Hrun.
  destruct (Nat.eq_dec k c) as [->|Hne]; [now exists error|].
  apply (IH (S c) _ ltac:(lia) Hrun k). lia.
Qed.

Lemma find_outliers_loo (x y : frame) (w : world) :
  2 <= shape0 x -> shape0 y = shape0 x -> folds_return x y ->
  find_outliers x y w =
  (Ok (filter (flagged x y) (seq 0 (shape0 x))),
   mkWorld (np_random w) (seed_state 1)).
Proof.
  intros Hn Hy Hret. unfold find_outliers, mbind, r_seed.
  rewrite KFold_loo by assumption. unfold lift.
  rewrite loo_loop by (assumption || lia || (intros k Hk; apply Hret; lia)).
  reflexivity.
Qed.

Lemma find_outliers_too_small (x y : frame) (w : world) :
  shape0 x <= 1 ->
  find_outliers x y w = (Raise ValueError, mkWorld (np_random w) (seed_state 1)).
Proof.
  intros Hn. unfold find_outliers, mbind, r_seed.
  now rewrite KFold_too_small by assumption.
Qed.

(** *** Dropping the recorded rows *)

Lemma drop_filter_positions (order : list nat) (rows : list (list pyfloat)) (a : nat) :
  map snd
      (filter (fun lr => negb (existsb (label_eqb (fst lr)) (map Pos order)))
              (combine (map Pos (seq a (length rows))) rows)) =
  map (fun k => nth (k - a) rows [])
      (filter (fun k => negb (mem k order)) (seq a (length rows))).
Proof.
  revert a. induction rows as [|r rows IH]; intros a; simpl; [reflexivity|].
  rewrite existsb_Pos.
  assert (Htail :
    map (fun k => nth (k - S a) rows [])
        (filter (fun k => negb (mem k order)) (seq (S a) (length rows))) =
    map (fun k => nth (k - a) (r :: rows) [])
        (filter (fun k => negb (mem k order)) (seq (S a) (length rows)))).
  { apply map_ext_in. intros k Hk. apply filter_In in Hk. destruct Hk as [Hk _].
    apply in_seq in Hk. replace (k - a) with (S (k - S a)) by lia. reflexivity. }
  destruct (mem a order); simpl.
  - rewrite IH. exact Htail.
  - rewrite Nat.sub_diag. f_equal. rewrite IH. exact Htail.
Qed.

Lemma drop_values_positions (df : frame) (order : list nat) :
  index df = RangeIndex (shape0 df) ->
  (forall k, In k order -> k < shape0 df) ->
  drop_values df (map Pos order) =
  Ok (map (fun k => nth k (values df) [])
          (filter (fun k => negb (mem k order)) (seq 0 (shape0 df)))).
Proof.
  intros Hidx Hall. unfold drop_values. rewrite Hidx. unfold RangeIndex.
  replace (forallb _ (map Pos order)) with true.
  - unfold shape0. rewrite drop_filter_positions. f_equal.
    apply map_ext. intros k. now rewrite Nat.sub_0_r.
  - symmetry. apply forallb_forall. intros l Hl. apply in_map_iff in Hl.
    destruct Hl as [k [<- Hk]]. rewrite existsb_Pos. apply mem_In, in_seq.
    specialize (Hall k Hk). lia.
Qed.

(** *** [reset_index().drop("index", axis=1)] *)

Lemma existsb_label (nm : label) (names : list label) :
  existsb (label_eqb nm) names = true <-> In nm names.
Proof.
  rewrite existsb_exists. split.
  - intros [c [Hin Heq]]. apply label_eqb_eq in Heq. now subst.
  - intros Hin. exists nm. split; [assumption | now apply label_eqb_eq].
Qed.

(** The frame after lines 144-145 has the row labels [0 .. n-1]. *)
Lemma reset_index_drop_index (df xr : frame) :
  reset_index_drop df = Ok xr ->
  index xr = RangeIndex (shape0 df) /\ shape0 xr = shape0 df.
Proof.
  unfold reset_index_drop, reset_index, drop_columns. intros H.
  destruct (existsb (label_eqb (Name "index")) (columns df));
    [destruct (existsb (label_eqb (Name "level_0")) (columns df)); [discriminate|]|];
    cbn [bind columns index values] in H;
    (destruct (positions_of _ _); [discriminate|]);
    inversion H; subst xr; cbn [index]; unfold shape0; cbn [values];
    now rewrite !length_map, length_seq.
Qed.

(** The two calls raise only when the frame has a column labelled [index]
    and one labelled [level_0]. *)
Lemma reset_index_drop_returns (df : frame) :
  ~ In (Name "level_0") (columns df) ->
  exists xr, reset_index_drop df = Ok xr.
Proof.
  intros Hno. unfold reset_index_drop, reset_index.
  destruct (existsb (label_eqb (Name "level_0")) (columns df)) eqn:Hl;
    [apply existsb_label in Hl; contradiction|].
  destruct (existsb (label_eqb (Name "index")) (columns df)) eqn:Hi;
    cbn [bind]; unfold drop_columns; cbn [columns].
  - apply existsb_label in Hi.
    assert (Hin : In (Name "index") (Name "level_0" :: columns df)) by now right.
    apply In_nth with (d := Pos 0) in Hin. destruct Hin as [p [Hp Hnth]].
    destruct (positions_of (Name "index") (Name "level_0" :: columns df)) eqn:Hpos.
    + exfalso. assert (Hq : In p (positions_of (Name "index")
                                   (Name "level_0" :: columns df))).
      { unfold positions_of. apply filter_In. split; [apply in_seq; lia|].
        rewrite Hnth. now apply label_eqb_eq. }
      rewrite Hpos in Hq. exact Hq.
    + eexists. reflexivity.
  - unfold positions_of. cbn [length seq filter nth].
    cbn [label_eqb]. rewrite String.eqb_refl. eexists. reflexivity.
Qed.

Lemma drop_columns_shape1 (df r : frame) (lbl : label) :
  NoDup (columns df) -> drop_columns df lbl = Ok r -> S (shape1 r) = shape1 df.
Proof.
  intros Hnd. unfold drop_columns.
  destruct (positions_of lbl (columns df)) as [|p ps] eqn:Hpos; [discriminate|].
  intros H. inversion H; subst r; clear H. unfold shape1 at 1. cbn [columns].
  rewrite length_map.
  assert (Hp : In p (positions_of lbl (columns df))) by (rewrite Hpos; now left).
  apply positions_of_In in Hp. destruct Hp as [Hp Hnth].
  pose proof (positions_of_nodup Hnd Hp) as Hone. rewrite Hnth in Hone.
  pose proof (filter_length (fun q => label_eqb (nth q (columns df) (Pos 0)) lbl)
                            (seq 0 (shape1 df))) as Hlen.
  unfold positions_of in Hone. unfold shape1 in *. rewrite Hone in Hlen.
  rewrite length_seq in Hlen. simpl in Hlen. lia.
Qed.

(** With distinct column labels they keep the number of columns. *)
Lemma reset_index_drop_shape1 (df xr : frame) :
  NoDup (columns df) -> reset_index_drop df = Ok xr -> shape1 xr = shape1 df.
Proof.
  intros Hnd. unfold reset_index_drop, reset_index.
  destruct (existsb (label_eqb (Name "index")) (columns df)) eqn:Hi.
  - destruct (existsb (label_eqb (Name "level_0")) (columns df)) eqn:Hl;
      [discriminate|].
    cbn [bind]. intros H. apply drop_columns_shape1 in H.
    + unfold shape1 in *. cbn [columns length] in H. lia.
    + cbn [columns]. constructor; [|assumption].
      intros Hin. apply existsb_label in Hin. congruence.
  - cbn [bind]. intros H. apply drop_columns_shape1 in H.
    + unfold shape1 in *. cbn [columns length] in H. lia.
    + cbn [columns]. constructor; [|assumption].
      intros Hin. apply existsb_label in Hin. congruence.
Qed.

(** On a frame without a column labelled [index] they change the row
    labels only. *)
Lemma reset_index_drop_plain (df : frame) :
  ~ In (Name "index") (columns df) -> Effects.rectangular df ->
  reset_index_drop df =
  Ok (mkFrame (columns df) (RangeIndex (shape0 df)) (values df)).
Proof.
  intros Hno Hrect. unfold reset_index_drop, reset_index.
  destruct (existsb (label_eqb (Name "index")) (columns df)) eqn:Hi;
    [apply existsb_label in Hi; contradiction|].
  cbn [bind]. unfold drop_columns, positions_of, shape1.
  cbn [columns index values length seq filter].
  change (nth 0 (Name "index" :: columns df) (Pos 0)) with (Name "index").
  cbn [label_eqb]. rewrite String.eqb_refl. cbn [negb].
  assert (Hkeep :
    filter (fun p => negb (label_eqb (nth p (Name "index" :: columns df) (Pos 0))
                                     (Name "index")))
           (seq 1 (length (columns df))) = seq 1 (length (columns df))).
  { apply forallb_filter_id. apply forallb_forall. intros p Hp. apply in_seq in Hp.
    destruct p as [|p]; [lia|]. cbn [nth].
    destruct (label_eqb (nth p (columns df) (Pos 0)) (Name "index")) eqn:Heq;
      [|reflexivity].
    apply label_eqb_eq in Heq. exfalso. apply Hno. rewrite <- Heq.
    apply nth_In. lia. }
  rewrite Hkeep. f_equal. f_equal.
  - rewrite <- seq_shift, map_map. cbn [nth]. apply map_nth_seq_id.
  - rewrite map_map.
    transitivity (map (fun k => nth k (values df) []) (seq 0 (shape0 df))).
    + apply map_ext_in. intros k Hk. apply in_seq in Hk.
      unfold take_positions. rewrite <- seq_shift, map_map. cbn [nth].
      unfold Effects.rectangular in Hrect. rewrite Forall_forall in Hrect.
      assert (Hlen : length (nth k (values df) []) = length (columns df)).
      { apply Hrect. apply nth_In. unfold shape0 in Hk. lia. }
      rewrite <- Hlen. apply map_nth_seq_id.
    + apply map_nth_seq_id.
Qed.

Lemma survivors_of_flagged (x y : frame) (table : list (list pyfloat)) :
  map (fun k => nth k table [])
      (filter (fun k => negb (mem k (filter (flagged x y) (seq 0 (shape0 x)))))
              (seq 0 (shape0 x))) =
  survivors x y table.
Proof.
  unfold survivors. f_equal. apply filter_ext_in. intros k Hk.
  now rewrite mem_filter.
Qed.

Lemma drop_outliers_loo (x y xr yr : frame) :
  shape0 y = shape0 x ->
  reset_index_drop x = Ok xr -> reset_index_drop y = Ok yr ->
  drop_outliers x y (filter (flagged x y) (seq 0 (shape0 x))) =
  Ok (DataFrame_default (shape1 xr) (survivors x y (values xr)),
      DataFrame_default (shape1 yr) (survivors x y (values yr))).
Proof.
  intros Hy Hx Hyr. unfold drop_outliers. rewrite Hx, Hyr. cbn [bind].
  destruct (@reset_index_drop_index _ _ Hx) as [Hix Hsx].
  destruct (@reset_index_drop_index _ _ Hyr) as [Hiy Hsy].
  rewrite <- Hsx in Hix. rewrite <- Hsy in Hiy.
  rewrite (@drop_values_positions xr _ Hix)
    by (intros k Hk; apply filter_In in Hk; destruct Hk as [Hk _];
        apply in_seq in Hk; lia).
  rewrite (@drop_values_positions yr _ Hiy)
    by (intros k Hk; apply filter_In in Hk; destruct Hk as [Hk _];
        apply in_seq in Hk; lia).
  cbn [bind]. rewrite Hsx, Hsy, Hy, !survivors_of_flagged. reflexivity.
Qed.

Lemma outlier_filter_loo (x y xr yr : frame) (w : world) :
  2 <= shape0 x -> shape0 y = shape0 x -> folds_return x y ->
  reset_index_drop x = Ok xr -> reset_index_drop y = Ok yr ->
  fst (outlier_filter x y w) =
  Ok (DataFrame_default (shape1 xr) (survivors x y (values xr)),
      DataFrame_default (shape1 yr) (survivors x y (values yr))).
Proof.
  intros Hn Hy Hret Hx Hyr. unfold outlier_filter, mbind.
  rewrite find_outliers_loo by assumption. unfold lift. cbn [fst].
  now apply drop_outliers_loo.
Qed.

(** The search for outliers returns only on at least two samples all of
    whose folds returned. *)
Lemma find_outliers_returns (x y : frame) (w : world) (order : list nat) :
  shape0 y = shape0 x ->
  fst (find_outliers x y w) = Ok order ->
  2 <= shape0 x /\ folds_return x y.
Proof.
  intros Hy Hrun.
  assert (Hn : 2 <= shape0 x).
  { destruct (le_lt_dec 2 (shape0 x)) as [|Hsmall]; [assumption|].
    rewrite find_outliers_too_small in Hrun by lia. discriminate. }
  split; [assumption|].
  unfold find_outliers, mbind, r_seed in Hrun.
  rewrite KFold_loo in Hrun by assumption. unfold lift in Hrun. cbn [fst] in Hrun.
  destruct (for_each (loo_body x y) _ _) as [r|e] eqn:Hloop; [|discriminate].
  intros k Hk.
  apply (@loo_loop_returns x y (shape0 x) 0 [] r Hy (Nat.le_refl _) Hloop). lia.
Qed.

Lemma survivors_length_one_flagged (x y : frame) (table : list (list pyfloat)) (k0 : nat) :
  k0 < shape0 x -> flagged x y k0 = true ->
  (forall k, k < shape0 x -> k <> k0 -> flagged x y k = false) ->
  S (length (survivors x y table)) = shape0 x.
Proof.
  intros Hk0 Hflag Hothers. unfold survivors. rewrite length_map.
  pose proof (filter_length (flagged x y) (seq 0 (shape0 x))) as Hlen.
  rewrite length_seq in Hlen.
  assert (Hone : filter (flagged x y) (seq 0 (shape0 x)) = [k0]).
  { apply singleton_of_nodup; [apply NoDup_filter, seq_NoDup|].
    intros q. rewrite filter_In, in_seq. split.
    - intros [Hq Hf]. destruct (Nat.eq_dec q k0) as [|Hne]; [assumption|].
      rewrite Hothers in Hf by lia. discriminate.
    - intros ->. split; [lia | assumption]. }
  rewrite Hone in Hlen. simpl in Hlen.
  erewrite filter_ext in Hlen; [|intros a; reflexivity]. lia.
Qed.

(** C4 (amended): on a train set of at least two samples (scikit-learn
    rejects a split into fewer than two folds) whose labels have as many
    rows, and on which every fold's fit, prediction and error return and
    lines 144-145 return the frames [xr] and [yr], the filter splits
    leave-one-out into as many folds as samples, records position [k]
    exactly when the held-out error of sample [k] exceeds 0.006, and
    returns the rows of [xr] and [yr] that are not recorded, in their
    order; these are the rows of X and Y unless a column is labelled
    [index]; with five samples of which exactly one is flagged, four rows
    are returned. *)
Theorem outlier_filter_rule (x y xr yr : frame) (w : world) :
  2 <= shape0 x -> shape0 y = shape0 x ->
  folds_return x y ->
  reset_index_drop x = Ok xr -> reset_index_drop y = Ok yr ->
  fst (KFold_split (shape0 x) None false (shape0 x) w) =
    Ok (map (fun k => (all_but (shape0 x) k, [k])) (seq 0 (shape0 x))) /\
  fst (find_outliers x y w) = Ok (filter (flagged x y) (seq 0 (shape0 x))) /\
  fst (outlier_filter x y w) =
    Ok (DataFrame_default (shape1 xr) (survivors x y (values xr)),
        DataFrame_default (shape1 yr) (survivors x y (values yr))) /\
  (~ In (Name "index") (columns x) -> Effects.rectangular x ->
   values xr = values x) /\
  (~ In (Name "index") (columns y) -> Effects.rectangular y ->
   values yr = values y) /\
  (shape0 x = 5 ->
   forall k0, k0 < 5 -> flagged x y k0 = true ->
   (forall k, k < 5 -> k <> k0 -> flagged x y k = false) ->
   length (survivors x y (values xr)) = 4 /\
   length (survivors x y (values yr)) = 4).
Proof.
  intros Hn Hy Hret Hx Hyr. split; [|split; [|split; [|split; [|split]]]].
  - now rewrite KFold_loo.
  - now rewrite find_outliers_loo.
  - now apply outlier_filter_loo.
  - intros Hno Hrect. rewrite (@reset_index_drop_plain _ Hno Hrect) in Hx.
    now inversion Hx.
  - intros Hno Hrect. rewrite (@reset_index_drop_plain _ Hno Hrect) in Hyr.
    now inversion Hyr.
  - intros H5 k0 Hk0 Hflag Hothers. rewrite <- H5 in Hk0, Hothers.
    pose proof (@survivors_length_one_flagged x y (values xr) k0 Hk0 Hflag Hothers) as Hsx.
    pose proof (@survivors_length_one_flagged x y (values yr) k0 Hk0 Hflag Hothers) as Hsy.
    lia.
Qed.

(** C10: the unshuffled split holds out position [k] in its k-th fold, so
    the recorded [cv_index] values are the positions of the flagged rows;
    the frames [xr] and [yr] that lines 144-145 make of X and Y carry the
    positions as row labels, and [drop] removes exactly the recorded rows
    from them. *)
Theorem cv_index_is_row_position (x y xr yr : frame) (w : world) (order : list nat) :
  shape0 y = shape0 x ->
  fst (find_outliers x y w) = Ok order ->
  reset_index_drop x = Ok xr -> reset_index_drop y = Ok yr ->
  (forall w', exists folds,
      fst (KFold_split (shape0 x) None false (shape0 x) w') = Ok folds /\
      length folds = shape0 x /\
      forall k, k < shape0 x -> snd (nth k folds ([], [])) = [k]) /\
  (forall k, In k order <-> k < shape0 x /\ flagged x y k = true) /\
  index xr = map Pos (seq 0 (shape0 x)) /\
  index yr = map Pos (seq 0 (shape0 x)) /\
  drop_values xr (map Pos order) = Ok (survivors x y (values xr)) /\
  drop_values yr (map Pos order) = Ok (survivors x y (values yr)) /\
  fst (outlier_filter x y w) =
    Ok (DataFrame_default (shape1 xr) (survivors x y (values xr)),
        DataFrame_default (shape1 yr) (survivors x y (values yr))).
Proof.
  intros Hy Hrun Hx Hyr.
  destruct (@find_outliers_returns x y w order Hy Hrun) as [Hn Hret].
  rewrite find_outliers_loo in Hrun by assumption. cbn [fst] in Hrun.
  inversion Hrun; subst order; clear Hrun.
  assert (Hin : forall k, In k (filter (flagged x y) (seq 0 (shape0 x))) -> k < shape0 x).
  { intros k Hk. apply filter_In in Hk. destruct Hk as [Hk _]. apply in_seq in Hk. lia. }
  destruct (@reset_index_drop_index _ _ Hx) as [Hix Hsx].
  destruct (@reset_index_drop_index _ _ Hyr) as [Hiy Hsy].
  split; [|split; [|split; [|split; [|split; [|split]]]]].
  - intros w'. exists (map (fun k => (all_but (shape0 x) k, [k])) (seq 0 (shape0 x))).
    rewrite KFold_loo by assumption. split; [reflexivity|split].
    + now rewrite length_map, length_seq.
    + intros k Hk.
      rewrite (nth_map_lt (fun k => (all_but (shape0 x) k, [k])) (seq 0 (shape0 x)) 0)
        by now rewrite length_seq.
      now rewrite seq_nth.
  - intros k. rewrite filter_In, in_seq. intuition lia.
  - exact Hix.
  - rewrite Hiy. now rewrite Hy.
  - assert (Hix' : index xr = RangeIndex (shape0 xr)) by now rewrite Hsx.
    rewrite (@drop_values_positions xr _ Hix')
      by (intros k Hk; apply Hin in Hk; lia).
    rewrite Hsx. now rewrite survivors_of_flagged.
  - assert (Hiy' : index yr = RangeIndex (shape0 yr)) by now rewrite Hsy.
    rewrite (@drop_values_positions yr _ Hiy')
      by (intros k Hk; apply Hin in Hk; lia).
    rewrite Hsy, Hy. now rewrite survivors_of_flagged.
  - now apply outlier_filter_loo.
Qed.

End WithLibrary.

(** C4, as stated, fails on a train set of one sample: the split into one
    fold is rejected and [preprocessing] raises [ValueError]. *)
Lemma single_sample_counterexample :
  shape0 Cases.x_one = 1 /\
  fst (outlier_filter (L := Example.library) Cases.x_one Cases.x_one Cases.w0)
    = Raise ValueError /\
  fst (preprocessing (L := Example.library) Cases.x_one Cases.x_one Cases.x_one Cases.w0)
    = Raise ValueError.
Proof. repeat split; reflexivity. Qed.

Lemma five_folds_return :
  folds_return (L := Example.library) Cases.x_five Cases.y_five.
Proof.
  intros [|[|[|[|[|k]]]]] Hk; try (eexists; reflexivity).
  exfalso. vm_compute in Hk. lia.
Defined.

Lemma outlier_filter_rule_witness :
  flagged (L := Example.library) Cases.x_five Cases.y_five 4 = true /\
  length (survivors (L := Example.library) Cases.x_five Cases.y_five
                    (values Cases.x_five)) = 4.
Proof.
  split; [reflexivity|].
  assert (H2 : 2 <= shape0 Cases.x_five) by (vm_compute; lia).
  assert (Hy : shape0 Cases.y_five = shape0 Cases.x_five) by reflexivity.
  assert (Hx : reset_index_drop Cases.x_five = Ok Cases.x_five) by reflexivity.
  assert (Hyr : reset_index_drop Cases.y_five = Ok Cases.y_five) by reflexivity.
  refine (proj1 (proj2 (proj2 (proj2 (proj2 (proj2
            (@outlier_filter_rule Example.library Cases.x_five Cases.y_five
               Cases.x_five Cases.y_five Cases.w0 H2 Hy five_folds_return Hx Hyr)))))
            eq_refl 4 _ eq_refl _)).
  - lia.
  - intros [|[|[|[|[|k]]]]] Hk Hne; try reflexivity; lia.
Defined.

Lemma cv_index_is_row_position_witness :
  fst (find_outliers (L := Example.library) Cases.x_five Cases.y_five Cases.w0) = Ok [4] /\
  drop_values Cases.x_five (map Pos [4]) =
    Ok [[Fin 1]; [Fin 2]; [Fin 3]; [Fin 4]].
Proof.
  assert (Hy : shape0 Cases.y_five = shape0 Cases.x_five) by reflexivity.
  assert (Hrun : fst (find_outliers (L := Example.library) Cases.x_five Cases.y_five Cases.w0)
                 = Ok [4]) by reflexivity.
  assert (Hx : reset_index_drop Cases.x_five = Ok Cases.x_five) by reflexivity.
  assert (Hyr : reset_index_drop Cases.y_five = Ok Cases.y_five) by reflexivity.
  split; [exact Hrun|].
  exact (proj1 (proj2 (proj2 (proj2 (proj2
           (@cv_index_is_row_position Example.library _ _ _ _ _ _ Hy Hrun Hx Hyr)))))).
Defined.

End Outliers.

(** ** The output writers *)

Module Writers.
Import Spec.

Lemma concat_length_matrix (M : nat) (a : list (list pyfloat)) :
  Forall (fun row => length row = M) a -> length (concat a) = length a * M.
Proof.
  induction 1 as [|row a Hrow _ IH]; simpl; [reflexivity|].
  rewrite length_app, IH, Hrow. reflexivity.
Qed.

(** Row-major order: cell [(r, c)] of the array is entry [r * M + c] of the
    flattened array. *)
Lemma concat_nth_matrix (M : nat) (a : list (list pyfloat)) (r c : nat) :
  Forall (fun row => length row = M) a -> r < length a -> c < M ->
  nth (r * M + c) (concat a) NaN = nth c (nth r a []) NaN.
Proof.
  intros Hall. revert r. induction Hall as [|row a Hrow _ IH]; intros r Hr Hc.
  - simpl in Hr. lia.
  - destruct r as [|r]; simpl.
    + apply app_nth1. lia.
    + rewrite <- Hrow at 1. rewrite <- Nat.add_assoc, app_nth2_plus.
      apply IH; simpl in Hr; lia.
Qed.

Lemma combine_seq_nth_error (l : list pyfloat) (a k : nat) :
  k < length l ->
  nth_error (combine (seq a (length l)) l) k = Some (a + k, nth k l NaN).
Proof.
  revert a k. induction l as [|v l IH]; intros a k Hk; simpl in *; [lia|].
  destruct k as [|k]; simpl.
  - now rewrite Nat.add_0_r.
  - rewrite IH by lia. now rewrite Nat.add_succ_r.
Qed.

Lemma arange_minus_one (n : nat) :
  map (fun k => k - 1) (range 1 (n + 1)) = seq 0 n.
Proof.
  unfold range. replace (n + 1 - 1) with n by lia.
  rewrite <- seq_shift, map_map. rewrite <- (map_id (seq 0 n)) at 2.
  apply map_ext. intros k. lia.
Qed.

Lemma round_half_even_close (q : Q) :
  (Qabs (inject_Z (Team15.round_half_even q) - q) <= 1 # 2)%Q.
Proof.
  unfold Team15.round_half_even.
  pose proof (Qfloor_le q) as Hlo. pose proof (Qlt_floor q) as Hhi.
  rewrite inject_Z_plus in Hhi. change (inject_Z 1) with 1%Q in Hhi.
  apply Qabs_Qle_condition.
  destruct (Qcompare (q - inject_Z (Qfloor q)) (1 # 2)) eqn:Hc.
  - apply Qeq_alt in Hc. destruct (Z.even (Qfloor q)).
    + split; lra.
    + rewrite inject_Z_plus. change (inject_Z 1) with 1%Q. split; lra.
  - apply Qlt_alt in Hc. split; lra.
  - apply Qgt_alt in Hc. rewrite inject_Z_plus. change (inject_Z 1) with 1%Q.
    split; lra.
Qed.

(** What ["%f"] prints lies within half a unit of the sixth decimal. *)
Lemma format_f_close (q : Q) :
  exists q', Team15.format_f (Fin q) = Fin q' /\ (Qabs (q' - q) <= 1 # 2000000)%Q.
Proof.
  eexists. split; [reflexivity|].
  pose proof (round_half_even_close (q * 1000000)) as H.
  set (z := Team15.round_half_even (q * 1000000)) in *.
  apply Qabs_Qle_condition in H. apply Qabs_Qle_condition.
  assert (Hz : (z # 1000000 == inject_Z z * (1 # 1000000))%Q)
    by (rewrite Qmake_Qdiv; reflexivity).
  rewrite Hz. split; lra.
Qed.

(** C5, as stated, fails for Team 15's writer: ["%f"] prints six decimals,
    so the prediction 0.0000001 is written as 0.000000 and reads back as
    0. *)
Lemma six_decimals_counterexample :
  rows (Team15.write_output [[Fin (1 # 10000000)]]) = [(0, Fin (0 # 1000000))] /\
  feq (Fin (0 # 1000000)) (Fin (1 # 10000000)) = false.
Proof. split; reflexivity. Qed.

(** C5 (amended): for an [N] by [M] prediction array both writers produce
    [N * M] data rows whose IDs are [0 .. N*M - 1] in row-major order, under
    a header that names ID and predicted (Team 17: [ID,predicted]; Team 15:
    the comment line [# ID, predicted]).  In Team 17's file the predicted
    cell of row [r * M + c] is the input value at [(r, c)]; in Team 15's
    file it is that value as ["%f"] prints it: [NaN] for [NaN], else a
    number within 0.0000005 of it. *)
Theorem write_output_rows (N M : nat) (predictions : list (list pyfloat)) :
  is_matrix N M predictions ->
  (header (Team17.write_output predictions) = "ID,predicted"%string /\
   length (rows (Team17.write_output predictions)) = N * M /\
   forall r c, r < N -> c < M ->
     nth_error (rows (Team17.write_output predictions)) (r * M + c) =
     Some (r * M + c, nth c (nth r predictions []) NaN)) /\
  (header (Team15.write_output predictions) = "# ID, predicted"%string /\
   length (rows (Team15.write_output predictions)) = N * M /\
   forall r c, r < N -> c < M ->
     nth_error (rows (Team15.write_output predictions)) (r * M + c) =
     Some (r * M + c, Team15.format_f (nth c (nth r predictions []) NaN))) /\
  (Team15.format_f NaN = NaN /\
   forall q, exists q',
     Team15.format_f (Fin q) = Fin q' /\ (Qabs (q' - q) <= 1 # 2000000)%Q).
Proof.
  intros [HN HM]. pose proof (concat_length_matrix HM) as Hlen. rewrite HN in Hlen.
  assert (Hpos : forall r c, r < N -> c < M -> r * M + c < N * M) by (intros; nia).
  split; [|split].
  - unfold Team17.write_output, flatten. cbn [header rows].
    split; [reflexivity|split].
    + now rewrite length_combine, length_seq, Nat.min_id.
    + intros r c Hr Hc. rewrite combine_seq_nth_error by (rewrite Hlen; auto).
      rewrite concat_nth_matrix by (assumption || lia). reflexivity.
  - unfold Team15.write_output, flatten. cbn [header rows].
    rewrite arange_minus_one.
    rewrite <- (length_map Team15.format_f (concat predictions)).
    split; [reflexivity|split].
    + now rewrite length_combine, length_seq, Nat.min_id, length_map.
    + intros r c Hr Hc.
      rewrite combine_seq_nth_error by (rewrite length_map, Hlen; auto).
      change NaN with (Team15.format_f NaN) at 1. rewrite map_nth.
      rewrite concat_nth_matrix by (assumption || lia). reflexivity.
  - split; [reflexivity | exact format_f_close].
Qed.

Lemma write_output_rows_witness :
  nth_error (rows (Team17.write_output Cases.predictions_2x2)) 3 =
    Some (3, Fin (1 # 10000000)) /\
  nth_error (rows (Team15.write_output Cases.predictions_2x2)) 3 =
    Some (3, Team15.format_f (Fin (1 # 10000000))).
Proof.
  assert (Hm : is_matrix 2 2 Cases.predictions_2x2).
  { split; [reflexivity | repeat constructor]. }
  destruct (write_output_rows Hm) as [[_ [_ H17]] [[_ [_ H15]] _]].
  split.
  - exact (H17 1 1 ltac:(lia) ltac:(lia)).
  - exact (H15 1 1 ltac:(lia) ltac:(lia)).
Defined.

End Writers.

(** ** Team 15: preprocessing has no effect *)

Module Store.
Import Team15.

Lemma deref_old (h : store) (df : frame) (r : ref) :
  r < length h -> deref (h ++ [df]) r = deref h r.
Proof. intros Hr. unfold deref. now rewrite nth_error_app1. Qed.

Lemma deref_new (h : store) (df : frame) : deref (h ++ [df]) (length h) = Ok df.
Proof.
  unfold deref. rewrite nth_error_app2 by lia. now rewrite Nat.sub_diag.
Qed.

Lemma method_T_alloc (h : store) (r : ref) (df : frame) :
  deref h r = Ok df -> method_T r h = Ok (length h, h ++ [transpose df]).
Proof. intros H. unfold method_T. now rewrite H. Qed.

Lemma method_drop_duplicates_alloc (h : store) (r : ref) (df : frame) :
  deref h r = Ok df ->
  method_drop_duplicates r h = Ok (length h, h ++ [drop_duplicates df]).
Proof. intros H. unfold method_drop_duplicates. now rewrite H. Qed.

(** C9: called on two frames of the store, [preprocessing] returns [None];
    the store it leaves extends the one it found by the six temporaries it
    allocated, so every object that existed before, the two arguments
    included, is unchanged, and none of the new frames is returned. *)
Theorem preprocessing_has_no_effect (h : store) (train_t0 test_t0 : ref)
        (train test : frame) :
  deref h train_t0 = Ok train ->
  deref h test_t0 = Ok test ->
  exists temporaries,
    preprocessing train_t0 test_t0 h = Ok (PyNone, h ++ temporaries) /\
    length temporaries = 6 /\
    (forall r, r < length h -> deref (h ++ temporaries) r = deref h r) /\
    deref (h ++ temporaries) train_t0 = Ok train /\
    deref (h ++ temporaries) test_t0 = Ok test.
Proof.
  intros Htrain Htest.
  assert (Hlt : test_t0 < length h).
  { unfold deref in Htest. destruct (nth_error h test_t0) eqn:Hn; [|discriminate].
    apply nth_error_Some. congruence. }
  exists [transpose train; drop_duplicates (transpose train);
          transpose (drop_duplicates (transpose train));
          transpose test; drop_duplicates (transpose test);
          transpose (drop_duplicates (transpose test))].
  assert (Hold : forall r, r < length h ->
            deref (h ++ [transpose train; drop_duplicates (transpose train);
                         transpose (drop_duplicates (transpose train));
                         transpose test; drop_duplicates (transpose test);
                         transpose (drop_duplicates (transpose test))]) r
            = deref h r).
  { intros r Hr. unfold deref. now rewrite nth_error_app1. }
  split; [|split; [reflexivity|split; [exact Hold|split]]].
  - unfold preprocessing.
    rewrite (@method_T_alloc _ _ _ Htrain). cbn [bind].
    rewrite (@method_drop_duplicates_alloc _ _ _ (deref_new h _)). cbn [bind].
    rewrite (@method_T_alloc _ _ _ (deref_new _ _)). cbn [bind].
    assert (Htest' : deref (((h ++ [transpose train])
                               ++ [drop_duplicates (transpose train)])
                              ++ [transpose (drop_duplicates (transpose train))]) test_t0
                     = Ok test).
    { rewrite !deref_old; [assumption | | |]; rewrite ?length_app; simpl; lia. }
    rewrite (@method_T_alloc _ _ _ Htest'). cbn [bind].
    rewrite (@method_drop_duplicates_alloc _ _ _ (deref_new _ _)). cbn [bind].
    rewrite (@method_T_alloc _ _ _ (deref_new _ _)). cbn [bind].
    rewrite <- !app_assoc. reflexivity.
  - rewrite Hold; [assumption|].
    unfold deref in Htrain. destruct (nth_error h train_t0) eqn:Hn; [|discriminate].
    apply nth_error_Some. congruence.
  - now rewrite Hold.
Qed.

Lemma preprocessing_has_no_effect_witness :
  exists temporaries,
    preprocessing 0 1 [Cases.X_dup; Cases.X_nodup] =
      Ok (PyNone, [Cases.X_dup; Cases.X_nodup] ++ temporaries) /\
    length temporaries = 6 /\
    (forall r, r < 2 ->
       deref ([Cases.X_dup; Cases.X_nodup] ++ temporaries) r =
       deref [Cases.X_dup; Cases.X_nodup] r) /\
    deref ([Cases.X_dup; Cases.X_nodup] ++ temporaries) 0 = Ok Cases.X_dup /\
    deref ([Cases.X_dup; Cases.X_nodup] ++ temporaries) 1 = Ok Cases.X_nodup.
Proof.
  exact (@preprocessing_has_no_effect [Cases.X_dup; Cases.X_nodup] 0 1
           Cases.X_dup Cases.X_nodup eq_refl eq_refl).
Defined.

End Store.

(** ** Cross-validation: what a fold's selection depends on *)

Module Leakage.
Import Team17 Spec.

Lemma iloc_rows_same (X X' : frame) (rows : list nat) :
  shape0 X = shape0 X' -> take_rows X rows = take_rows X' rows ->
  iloc_rows X rows = iloc_rows X' rows.
Proof. intros Hs Ht. unfold iloc_rows. now rewrite Hs, Ht. Qed.

Lemma iloc_rows_same_outcome (X X' : frame) (rows : list nat) :
  shape0 X = shape0 X' ->
  (exists a a', iloc_rows X rows = Ok a /\ iloc_rows X' rows = Ok a') \/
  (exists e, iloc_rows X rows = Raise e /\ iloc_rows X' rows = Raise e).
Proof.
  intros Hs. unfold iloc_rows. rewrite Hs.
  destruct (forallb _ rows); [left | right]; eauto.
Qed.

Section WithLibrary.
Context {L : Library}.

(** The test frame enters [preprocessing] at line 124 only, where it is
    re-indexed on the labels selected from the train frame. *)
Lemma preprocessing_selection (x y t t' : frame) (w : world) :
  selection (fst (preprocessing x y t w)) = selection (fst (preprocessing x y t' w)).
Proof.
  unfold preprocessing, mbind, lift, ret.
  destruct (feature_reducer x y) as [[[sel t0] t1]|e]; [|reflexivity].
  unfold backward_eliminator.
  destruct (backward_elimination (Arr2 (values t0)) (Arr2 (values t1)) sel)
    as [[xa cols]|e]; [|reflexivity].
  cbn [bind]. destruct (DataFrame_of_ndarray xa sel) as [x_tra|e]; [|reflexivity].
  cbn [bind]. destruct (outlier_filter x_tra y w) as [[[a b]|e] w']; reflexivity.
Qed.

(** C1 (amended): when two data sets have the same samples in a fold's
    train partition, Team 17's per-fold preprocessing keeps the same train
    rows and selects the same columns, also on the test frame, and Team
    15's duplicate dropping keeps the same train columns; the columns Team
    15 keeps on the test frame are those of the test slice freed of its
    own duplicates. *)
Theorem fold_selection_from_train (X X' Y Y' : frame) (fold : list nat * list nat)
        (w : world) :
  shape0 X = shape0 X' -> shape0 Y = shape0 Y' ->
  take_rows X (fst fold) = take_rows X' (fst fold) ->
  take_rows Y (fst fold) = take_rows Y' (fst fold) ->
  selection (fst (fold_preprocessing X Y fold w)) =
    selection (fst (fold_preprocessing X' Y' fold w)) /\
  train_side (Team15.cv5_fold X Y fold) = train_side (Team15.cv5_fold X' Y' fold) /\
  test_columns (Team15.cv5_fold X Y fold) =
    ('(_, _, _, _) <- Team15.cv5_fold X Y fold ;;
     Ok (columns (Team15.drop_duplicate_columns (take_rows X (snd fold))))).
Proof.
  intros HsX HsY HtX HtY. destruct fold as [train test]. cbn [fst snd] in *.
  pose proof (@iloc_rows_same X X' train HsX HtX) as HX.
  pose proof (@iloc_rows_same Y Y' train HsY HtY) as HY.
  split; [|split].
  - unfold fold_preprocessing, mbind, lift. rewrite HX, HY.
    destruct (iloc_rows X' train) as [x_train|e]; [|reflexivity].
    destruct (iloc_rows Y' train) as [y_train|e]; [|reflexivity].
    destruct (@iloc_rows_same_outcome X X' test HsX) as [[a [a' [Ha Ha']]] | [e [He He']]].
    + rewrite Ha, Ha'. apply preprocessing_selection.
    + rewrite He, He'. reflexivity.
  - unfold Team15.cv5_fold. rewrite HX, HY.
    destruct (iloc_rows X' train) as [x_train|e]; [|reflexivity]. cbn [bind].
    destruct (@iloc_rows_same_outcome X X' test HsX) as [[a [a' [Ha Ha']]] | [e [He He']]].
    + rewrite Ha, Ha'. cbn [bind].
      destruct (iloc_rows Y' train) as [y_train|e]; [|reflexivity]. cbn [bind].
      destruct (@iloc_rows_same_outcome Y Y' test HsY) as [[b [b' [Hb Hb']]] | [e [He He']]].
      * rewrite Hb, Hb'. reflexivity.
      * rewrite He, He'. reflexivity.
    + rewrite He, He'. reflexivity.
  - unfold Team15.cv5_fold, test_columns.
    destruct (iloc_rows X train) as [x_train|e]; [|reflexivity]. cbn [bind].
    destruct (iloc_rows X test) as [x_test|e] eqn:Ht; [|reflexivity]. cbn [bind].
    assert (Hx : x_test = take_rows X test).
    { unfold iloc_rows in Ht. destruct (forallb _ test); now inversion Ht. }
    subst x_test.
    destruct (iloc_rows Y train) as [y_train|e]; [|reflexivity]. cbn [bind].
    destruct (iloc_rows Y test) as [y_test|e]; reflexivity.
Qed.

End WithLibrary.

(** C1, as stated, fails in Team 15's [cv5]: two data sets of five
    samples that differ in the third sample only (0.03, 0.05 against 0.03,
    0.03) get different columns on the test frame of the fold that holds
    the third sample out, because the test slice drops its own duplicate
    columns. *)
Lemma test_side_counterexample :
  shape0 Cases.x_fit = shape0 Cases.x_fit_other /\
  take_rows Cases.x_fit (fst Cases.fold_middle) =
    take_rows Cases.x_fit_other (fst Cases.fold_middle) /\
  (exists folds,
      fst (KFold_split (L := Example.library) 5 (Some 1) true
                       (shape0 Cases.x_fit) Cases.w0) = Ok folds /\
      In Cases.fold_middle folds) /\
  test_columns (Team15.cv5_fold Cases.x_fit Cases.y_fit Cases.fold_middle) =
    Ok [Name "a"; Name "b"] /\
  test_columns (Team15.cv5_fold Cases.x_fit_other Cases.y_fit Cases.fold_middle) =
    Ok [Name "a"].
Proof.
  split; [reflexivity|]. split; [reflexivity|]. split.
  - eexists. split; [vm_compute; reflexivity|]. simpl. tauto.
  - split; reflexivity.
Qed.

Lemma fold_selection_from_train_witness :
  selection (fst (fold_preprocessing (L := Example.library)
                    Cases.x_fit Cases.y_fit Cases.fold_middle Cases.w0)) =
    Ok (DataFrame_default 2 (values (take_rows Cases.x_fit [0; 1; 3; 4])),
        DataFrame_default 2 (values (take_rows Cases.y_fit [0; 1; 3; 4])),
        [Name "a"; Name "b"]) /\
  selection (fst (fold_preprocessing (L := Example.library)
                    Cases.x_fit_other Cases.y_fit Cases.fold_middle Cases.w0)) =
    Ok (DataFrame_default 2 (values (take_rows Cases.x_fit [0; 1; 3; 4])),
        DataFrame_default 2 (values (take_rows Cases.y_fit [0; 1; 3; 4])),
        [Name "a"; Name "b"]).
Proof.
  assert (Hrun : selection (fst (fold_preprocessing (L := Example.library)
                    Cases.x_fit Cases.y_fit Cases.fold_middle Cases.w0)) =
    Ok (DataFrame_default 2 (values (take_rows Cases.x_fit [0; 1; 3; 4])),
        DataFrame_default 2 (values (take_rows Cases.y_fit [0; 1; 3; 4])),
        [Name "a"; Name "b"])) by (vm_compute; reflexivity).
  split; [exact Hrun|].
  rewrite <- Hrun. symmetry.
  exact (proj1 (@fold_selection_from_train Example.library
                  Cases.x_fit Cases.x_fit_other Cases.y_fit Cases.y_fit
                  Cases.fold_middle Cases.w0 eq_refl eq_refl eq_refl eq_refl)).
Defined.

End Leakage.

(** ** Team 17: reproducibility under the fixed seed *)

Module Determinism.
Import Team17 Spec.

Section WithLibrary.
Context {L : Library}.

Lemma oblivious_ret (A : Type) (a : A) : oblivious (ret a).
Proof. intros w1 w2. reflexivity. Qed.

Lemma oblivious_lift (A : Type) (r : result A) : oblivious (lift r).
Proof. intros w1 w2. reflexivity. Qed.

Lemma oblivious_bind (A B : Type) (m : M A) (k : A -> M B) :
  oblivious m -> (forall a, oblivious (k a)) -> oblivious (mbind m k).
Proof.
  intros Hm Hk w1 w2. unfold mbind. specialize (Hm w1 w2).
  destruct (m w1) as [r1 w1'], (m w2) as [r2 w2']. cbn [fst] in Hm. subst r2.
  destruct r1 as [a|e]; [apply Hk | reflexivity].
Qed.

Lemma oblivious_mfor_each (A S : Type) (body : S -> A -> M S) (l : list A) (s : S) :
  (forall s' a, oblivious (body s' a)) -> oblivious (mfor_each body l s).
Proof.
  intros Hbody. revert s. induction l as [|a l IH]; intros s; cbn [mfor_each].
  - apply oblivious_ret.
  - apply oblivious_bind; [apply Hbody | exact IH].
Qed.

Lemma oblivious_r_seed (s : nat) : oblivious (r_seed s).
Proof. intros w1 w2. reflexivity. Qed.

(** A split without shuffling, or shuffled by a generator of its own seed,
    does not read the process-wide generators. *)
Lemma oblivious_KFold_split (n_splits : nat) (random_state : option nat)
      (shuffle : bool) (n : nat) :
  shuffle = false \/ random_state <> None ->
  oblivious (KFold_split n_splits random_state shuffle n).
Proof.
  intros Hmode w1 w2. unfold KFold_split.
  destruct (n_splits <=? 1); [reflexivity|].
  destruct (negb shuffle && _); [reflexivity|].
  destruct (n <? n_splits); [reflexivity|].
  destruct shuffle; [|reflexivity].
  destruct random_state as [s|]; [reflexivity|].
  destruct Hmode as [Hs | Hr]; [discriminate | now elim Hr].
Qed.

Lemma oblivious_cv_split (X : frame) : oblivious (cv_split X).
Proof. apply oblivious_KFold_split. right. discriminate. Qed.

Lemma oblivious_find_outliers (x y : frame) : oblivious (find_outliers x y).
Proof.
  unfold find_outliers. apply oblivious_bind; [apply oblivious_r_seed|].
  intros _. apply oblivious_bind; [apply oblivious_KFold_split; now left|].
  intros folds. apply oblivious_lift.
Qed.

Lemma oblivious_outlier_filter (x y : frame) : oblivious (outlier_filter x y).
Proof.
  unfold outlier_filter. apply oblivious_bind; [apply oblivious_find_outliers|].
  intros order. apply oblivious_lift.
Qed.

Lemma oblivious_preprocessing (x y t : frame) : oblivious (preprocessing x y t).
Proof.
  unfold preprocessing. apply oblivious_bind; [apply oblivious_lift|].
  intros [[sel t0] t1]. apply oblivious_bind; [apply oblivious_lift|].
  intros [x' t']. apply oblivious_bind; [apply oblivious_outlier_filter|].
  intros [x'' y']. apply oblivious_ret.
Qed.

Lemma oblivious_cv_body (X Y : frame)
      (acc : list pyfloat * list pyfloat * list pyfloat)
      (fold : list nat * list nat) :
  oblivious (cv_body X Y acc fold).
Proof.
  unfold cv_body. destruct acc as [[errors maes] pcc].
  apply oblivious_bind; [apply oblivious_lift|].
  intros y_test. apply oblivious_bind.
  - unfold fold_preprocessing. destruct fold as [train test].
    apply oblivious_bind; [apply oblivious_lift|]. intros x_train.
    apply oblivious_bind; [apply oblivious_lift|]. intros y_train.
    apply oblivious_bind; [apply oblivious_lift|]. intros x_test.
    apply oblivious_preprocessing.
  - intros [[x_train y_train] x_test].
    apply oblivious_bind; [apply oblivious_lift|]. intros m.
    apply oblivious_bind; [apply oblivious_lift|]. intros y_pred.
    apply oblivious_bind; [apply oblivious_lift|]. intros error.
    apply oblivious_bind; [apply oblivious_lift|]. intros a.
    apply oblivious_bind; [apply oblivious_lift|]. intros r.
    apply oblivious_ret.
Qed.

Lemma oblivious_cross_validation (x y : frame) : oblivious (cross_validation x y).
Proof.
  unfold cross_validation. apply oblivious_bind; [apply oblivious_cv_split|].
  intros folds. apply oblivious_bind.
  - apply oblivious_mfor_each. intros acc fold. apply oblivious_cv_body.
  - intros [[errors maes] pcc]. apply oblivious_ret.
Qed.

Lemma module_init_resets (w : world) :
  module_init w = (Ok tt, mkWorld (seed_state 1) (seed_state 1)).
Proof. reflexivity. Qed.

Lemma mbind_module_init (A : Type) (k : unit -> M A) (w : world) :
  mbind module_init k w = k tt (mkWorld (seed_state 1) (seed_state 1)).
Proof. reflexivity. Qed.

(** C6: whatever state the process-wide generators start in, the seeding of
    lines 50-51 overwrites it, so two runs of the script on the same files
    are identical; and neither the 5-fold partition (shuffled by a
    generator of its own, seeded with 1) nor the outlier indices (found on
    an unshuffled split) depend on the process-wide generators at all. *)
Theorem seeded_runs_agree (x_tra y_tra x_tst : frame) (w1 w2 : world) :
  fst (cv_split x_tra w1) = fst (cv_split x_tra w2) /\
  fst (find_outliers x_tra y_tra w1) = fst (find_outliers x_tra y_tra w2) /\
  fst (cross_validation x_tra y_tra w1) = fst (cross_validation x_tra y_tra w2) /\
  fst (preprocessing x_tra y_tra x_tst w1) = fst (preprocessing x_tra y_tra x_tst w2) /\
  main x_tra y_tra x_tst w1 = main x_tra y_tra x_tst w2.
Proof.
  split; [apply oblivious_cv_split|].
  split; [apply oblivious_find_outliers|].
  split; [apply oblivious_cross_validation|].
  split; [apply oblivious_preprocessing|].
  unfold main. now rewrite !mbind_module_init.
Qed.

End WithLibrary.

Lemma seeded_runs_agree_witness :
  main (L := Example.library) Cases.x_fit Cases.y_fit Cases.t_fit Cases.w0 =
  main (L := Example.library) Cases.x_fit Cases.y_fit Cases.t_fit
       (mkWorld (L := Example.library) 0 0).
Proof.
  exact (proj2 (proj2 (proj2 (proj2
    (@seeded_runs_agree Example.library Cases.x_fit Cases.y_fit Cases.t_fit
       Cases.w0 (mkWorld (L := Example.library) 0 0)))))).
Defined.

End Determinism.

(** * Further properties of the code *)

(** ** Team 17: what the Feature Reducer guarantees *)

Module ReducerMore.
Import Team17 Reducer FrameFacts ReducerFrames.

(** X1: the first column is always kept, and whatever column is kept has a
    correlation below 0.9 (or undefined) with every column of lower index,
    kept or not: no two kept columns reach the threshold. *)
Theorem kept_columns_below_threshold (corr : list (list pyfloat)) :
  (0 < length corr -> nth 0 (correlation_mask corr) false = true) /\
  (forall i j, i < j -> j < length corr ->
     nth j (correlation_mask corr) false = true ->
     ge (iloc corr i j) threshold_corr = false).
Proof.
  split.
  - intros H0. apply correlation_mask_true; [assumption|]. intros i Hi. lia.
  - intros i j Hij Hj Hkept.
    exact (proj1 (correlation_mask_true corr Hj) Hkept i Hij).
Qed.

Lemma kept_columns_below_threshold_witness :
  nth 0 (correlation_mask Cases.corr_constant_middle) false = true /\
  ge (iloc Cases.corr_constant_middle 0 1) threshold_corr = false.
Proof.
  destruct (kept_columns_below_threshold Cases.corr_constant_middle) as [H0 Hp].
  split.
  - apply H0. simpl. lia.
  - apply Hp; [lia | simpl; lia | reflexivity].
Defined.

Lemma positions_of_nonempty (nm : label) (have : list label) :
  In nm have -> positions_of nm have <> [].
Proof.
  intros Hin Hnil. destruct (In_nth have nm (Pos 0) Hin) as [p [Hp Hnth]].
  assert (Hpos : In p (positions_of nm have)) by (apply positions_of_In; auto).
  rewrite Hnil in Hpos. exact Hpos.
Qed.

Lemma positions_of_absent (nm : label) (have : list label) :
  ~ In nm have -> positions_of nm have = [].
Proof.
  intros Hnot. destruct (positions_of nm have) as [|p ps] eqn:Hpos; [reflexivity|].
  exfalso. apply Hnot.
  assert (Hp : In p (positions_of nm have)) by (rewrite Hpos; now left).
  apply positions_of_In in Hp. destruct Hp as [Hp <-]. now apply nth_In.
Qed.

Lemma indexer_present (names have : list label) :
  (forall nm, In nm names -> In nm have) ->
  exists qs, indexer names have = Ok qs.
Proof.
  induction names as [|nm names IH]; intros Hall; simpl.
  - now exists [].
  - destruct (positions_of nm have) as [|p ps] eqn:Hpos.
    + exfalso. apply (@positions_of_nonempty nm have); [apply Hall; now left | assumption].
    + destruct IH as [qs Hqs]; [intros n Hn; apply Hall; now right|].
      rewrite Hqs. simpl. eauto.
Qed.

Lemma indexer_missing (names have : list label) (nm : label) :
  In nm names -> ~ In nm have -> indexer names have = Raise KeyError.
Proof.
  induction names as [|n names IH]; intros Hin Hnot; simpl; [contradiction|].
  destruct (positions_of n have) as [|p ps] eqn:Hpos; [reflexivity|].
  destruct Hin as [-> | Hin].
  - rewrite positions_of_absent in Hpos by assumption. discriminate.
  - rewrite IH by assumption. reflexivity.
Qed.

Lemma getitem_shape (df f : frame) (names : list label) :
  getitem df names = Ok f ->
  index f = index df /\
  exists ps, values f = map (take_positions ps) (values df) /\
             columns f = map (fun p => nth p (columns df) (Pos 0)) ps.
Proof.
  unfold getitem. destruct (indexer names (columns df)) as [ps|e]; [|discriminate].
  cbn [bind]. intros H. inversion H; subst f; clear H. cbn [index values columns].
  split; [reflexivity|]. now exists ps.
Qed.

Section WithLibrary.
Context {L : Library}.

Lemma feature_reducer_ok (x y : frame) (sel : list label) (t0 t1 : frame) :
  feature_reducer x y = Ok (sel, t0, t1) ->
  sel = labels_at (columns x) (correlation_mask (DataFrame_corr x)) /\
  getitem x sel = Ok t0 /\ getitem y sel = Ok t1.
Proof.
  unfold feature_reducer. cbv zeta.
  destruct (getitem x _) as [a|e] eqn:Ha; [|discriminate]. cbn [bind].
  destruct (getitem y _) as [b|e] eqn:Hb; [|discriminate]. cbn [bind].
  intros H. inversion H; subst. auto.
Qed.

(** X2: on a train frame with distinct column labels the Feature Reducer
    succeeds exactly when the label frame carries every selected label.
    It then keeps the selected columns of X in their order and all rows of
    X and Y under their index; a selected label that Y lacks raises
    [KeyError], also out of [preprocessing]. *)
Theorem feature_reducer_outcome (x y : frame) :
  NoDup (columns x) ->
  let ps := selected_positions (correlation_mask (DataFrame_corr x)) in
  let sel := map (fun p => nth p (columns x) (Pos 0)) ps in
  ((forall lbl, In lbl sel -> In lbl (columns y)) ->
   exists t1,
     feature_reducer x y =
       Ok (sel, mkFrame sel (index x) (map (take_positions ps) (values x)), t1) /\
     index t1 = index y /\ shape0 t1 = shape0 y) /\
  (forall lbl, In lbl sel -> ~ In lbl (columns y) ->
     feature_reducer x y = Raise KeyError /\
     forall x_tst w, fst (preprocessing x y x_tst w) = Raise KeyError).
Proof.
  intros Hnd ps sel. split.
  - intros Hall. destruct (indexer_present sel (columns y) Hall) as [qs Hqs].
    exists (mkFrame (map (fun q => nth q (columns y) (Pos 0)) qs) (index y)
                    (map (take_positions qs) (values y))).
    split; [|split].
    + unfold feature_reducer. cbv zeta. rewrite (reducer_t0 x Hnd). cbn [bind].
      unfold labels_at. fold ps. fold sel. unfold getitem. rewrite Hqs. reflexivity.
    + reflexivity.
    + unfold shape0. cbn [values]. apply length_map.
  - intros lbl Hin Hnot.
    assert (Hfr : feature_reducer x y = Raise KeyError).
    { unfold feature_reducer. cbv zeta. rewrite (reducer_t0 x Hnd). cbn [bind].
      unfold labels_at. fold ps. fold sel. unfold getitem.
      now rewrite (indexer_missing sel (columns y) lbl Hin Hnot). }
    split; [exact Hfr|]. intros x_tst w.
    unfold preprocessing, mbind, lift. now rewrite Hfr.
Qed.

End WithLibrary.

Lemma feature_reducer_outcome_witness :
  feature_reducer (L := Example.library) Cases.x_abc Cases.x_single = Raise KeyError.
Proof.
  assert (Hnd : NoDup (columns Cases.x_abc)).
  { repeat constructor; simpl; intuition discriminate. }
  refine (proj1 (proj2 (@feature_reducer_outcome Example.library
                          Cases.x_abc Cases.x_single Hnd) (Name "b") _ _)).
  - right. now left.
  - simpl. intuition discriminate.
Defined.

End ReducerMore.

(** ** Team 17: outcomes of the eliminator and of preprocessing *)

Module PreprocessingMore.
Import Team17 Spec17 Effects FrameFacts ReducerFrames Eliminator Outliers ReducerMore.

Lemma drop_values_length (df : frame) (labels : list label) (v : list (list pyfloat)) :
  drop_values df labels = Ok v -> length v <= shape0 df.
Proof.
  unfold drop_values. destruct (forallb _ labels); [|discriminate].
  intros H. inversion H; subst v; clear H. rewrite length_map.
  etransitivity; [apply filter_length_le|].
  rewrite length_combine. unfold shape0. lia.
Qed.

Section WithLibrary.
Context {L : Library}.

Lemma backward_eliminator_ok (sel : list label) (t0 t1 x_tst x_tra' x_tst' : frame) :
  backward_eliminator sel t0 t1 x_tst = Ok (x_tra', x_tst') ->
  x_tra' = mkFrame sel (RangeIndex (shape0 t0)) (values t0) /\
  x_tst' = DataFrame_of_frame x_tst sel /\
  backward_elimination (Arr2 (values t0)) (Arr2 (values t1)) sel =
    Ok (Arr2 (values t0), sel).
Proof.
  intros Hrun. unfold backward_eliminator in Hrun. cbv zeta in Hrun.
  destruct (backward_elimination (Arr2 (values t0)) (Arr2 (values t1)) sel)
    as [[xa cols]|e] eqn:Hbe; [|discriminate].
  destruct (backward_elimination_unchanged (values t0) (Arr2 (values t1)) sel)
    as [Hsame | [e He]]; [|congruence].
  rewrite Hbe in Hsame. inversion Hsame; subst xa cols; clear Hsame.
  cbn [bind DataFrame_of_ndarray] in Hrun. unfold DataFrame_of_array in Hrun.
  destruct (forallb _ (values t0)); [|discriminate].
  cbn [bind] in Hrun. inversion Hrun; subst x_tra' x_tst'; clear Hrun.
  auto.
Qed.

(** X3: the Backward Eliminator never narrows.  When it returns, the train
    frame carries the values and labels it was given under a fresh default
    index, the test frame is the given one re-indexed on the same labels,
    every regression returned and no feature had a p-value above 0.05
    (otherwise it raises). *)
Theorem backward_eliminator_never_narrows
        (sel : list label) (t0 t1 x_tst x_tra' x_tst' : frame) :
  backward_eliminator sel t0 t1 x_tst = Ok (x_tra', x_tst') ->
  x_tra' = mkFrame sel (RangeIndex (shape0 t0)) (values t0) /\
  x_tst' = DataFrame_of_frame x_tst sel /\
  (forall numVars i Y_temp x_temp,
      len_first_row (Arr2 (values t0)) = Ok numVars -> i < numVars ->
      slice_column (Arr2 (values t1)) i = Ok Y_temp ->
      slice_column (Arr2 (values t0)) i = Ok x_temp ->
      exists p, ols_pvalue Y_temp x_temp = Ok p /\
                gt p threshold_pvalue = false).
Proof.
  intros Hrun. destruct (@backward_eliminator_ok _ _ _ _ _ _ Hrun) as [Hx [Ht Hbe]].
  split; [exact Hx|split; [exact Ht|]].
  intros numVars i Y_temp x_temp Hlen Hi HY Hx0.
  destruct (ols_pvalue Y_temp x_temp) as [p|e] eqn:Hp.
  - exists p. split; [reflexivity|].
    destruct (gt p threshold_pvalue) eqn:Hgt; [|reflexivity].
    destruct (@backward_elimination_raises L (values t0) (Arr2 (values t1)) sel
                numVars i Y_temp x_temp p Hlen Hi HY Hx0 Hp Hgt) as [e He].
    congruence.
  - destruct (@backward_elimination_ols_raises L (values t0) (Arr2 (values t1)) sel
                numVars i Y_temp x_temp e Hlen Hi HY Hx0 Hp) as [e' He].
    congruence.
Qed.

(** X4: too few samples.  Once the Feature Reducer has passed, an empty
    train frame makes [preprocessing] raise [IndexError] (line 111 reads
    [x[0]]), and a train frame of one sample that passes the eliminator
    makes it raise [ValueError] (line 129 asks for a split into one
    fold). *)
Theorem preprocessing_too_few_samples (x y x_tst : frame) (w : world)
        (sel : list label) (t0 t1 : frame) :
  feature_reducer x y = Ok (sel, t0, t1) ->
  (shape0 x = 0 -> fst (preprocessing x y x_tst w) = Raise IndexError) /\
  (shape0 x = 1 -> is_true_ok (backward_eliminator sel t0 t1 x_tst) ->
   fst (preprocessing x y x_tst w) = Raise ValueError).
Proof.
  intros Hfr. destruct (@feature_reducer_ok _ _ _ _ _ _ Hfr) as [_ [Hg0 _]].
  destruct (@getitem_shape _ _ _ Hg0) as [_ [ps [Hvals _]]].
  assert (Hshape : shape0 t0 = shape0 x)
    by (unfold shape0; rewrite Hvals; apply length_map).
  split.
  - intros Hempty. unfold preprocessing, mbind, lift. rewrite Hfr.
    unfold backward_eliminator, backward_elimination. cbv zeta.
    unfold shape0 in Hshape, Hempty. rewrite Hempty in Hshape.
    destruct (values t0); [reflexivity | discriminate].
  - intros Hone Hok. unfold preprocessing, mbind, lift. rewrite Hfr.
    destruct (backward_eliminator sel t0 t1 x_tst) as [[x_tra' x_tst']|e] eqn:Hbe;
      [|contradiction].
    destruct (@backward_eliminator_ok _ _ _ _ _ _ Hbe) as [Hx _]. subst x_tra'.
    unfold outlier_filter, mbind.
    rewrite find_outliers_too_small; [reflexivity|].
    unfold shape0 at 1. cbn [values]. fold (shape0 t0). lia.
Qed.

(** X5: what [preprocessing] returns when it returns.  The test frame is
    the given one re-indexed on the labels selected from the train frame,
    with all its rows; the train frames lose their labels to default
    integer labels, X (when its labels are distinct) with one column per
    selected label and Y (likewise) with every label column it came with:
    the selection is not applied to it; there were at least two samples,
    and no row was added. *)
Theorem preprocessing_postcondition (x y x_tst : frame) (w : world)
        (x' y' x_tst' : frame) :
  fst (preprocessing x y x_tst w) = Ok (x', y', x_tst') ->
  let sel := labels_at (columns x) (correlation_mask (DataFrame_corr x)) in
  x_tst' = DataFrame_of_frame x_tst sel /\
  index x_tst' = index x_tst /\ shape0 x_tst' = shape0 x_tst /\
  (NoDup (columns x) -> columns x' = RangeIndex (length sel)) /\
  (NoDup (columns y) -> columns y' = RangeIndex (shape1 y)) /\
  2 <= shape0 x /\ shape0 x' <= shape0 x /\ shape0 y' <= shape0 y.
Proof.
  intros Hrun sel. unfold preprocessing, mbind, lift in Hrun.
  destruct (feature_reducer x y) as [[[sel' t0] t1]|e] eqn:Hfr; [|discriminate].
  destruct (@feature_reducer_ok _ _ _ _ _ _ Hfr) as [Hsel [Hg0 _]].
  destruct (@getitem_shape _ _ _ Hg0) as [_ [ps [Hvals _]]].
  assert (Hshape : shape0 t0 = shape0 x)
    by (unfold shape0; rewrite Hvals; apply length_map).
  destruct (backward_eliminator sel' t0 t1 x_tst) as [[x_tra' t']|e] eqn:Hbe;
    [|discriminate].
  destruct (@backward_eliminator_ok _ _ _ _ _ _ Hbe) as [Hx [Ht _]]. subst x_tra' t'.
  unfold outlier_filter, mbind, lift in Hrun.
  set (xf := mkFrame sel' (RangeIndex (shape0 t0)) (values t0)) in *.
  assert (Hxf : shape0 xf = shape0 x) by exact Hshape.
  destruct (le_lt_dec (shape0 xf) 1) as [Hsmall|Hbig].
  { rewrite find_outliers_too_small in Hrun by assumption. discriminate. }
  destruct (find_outliers xf y w) as [[order|e] w']; [|discriminate].
  unfold drop_outliers in Hrun.
  destruct (reset_index_drop xf) as [xr|e] eqn:Hxr; [|discriminate].
  destruct (reset_index_drop y) as [yr|e] eqn:Hyr; [|discriminate].
  cbn [bind] in Hrun.
  destruct (drop_values xr (map Pos order)) as [xv|e] eqn:Hxv; [|discriminate].
  cbn [bind] in Hrun.
  destruct (drop_values yr (map Pos order)) as [yv|e] eqn:Hyv; [|discriminate].
  cbn [bind fst ret] in Hrun. inversion Hrun; subst x' y' x_tst'; clear Hrun.
  apply drop_values_length in Hxv. apply drop_values_length in Hyv.
  destruct (@reset_index_drop_index _ _ Hxr) as [_ Hsx].
  destruct (@reset_index_drop_index _ _ Hyr) as [_ Hsy].
  subst sel'. fold sel in xf, Hxr, Hbe, Hfr |- *.
  split; [reflexivity|]. split; [reflexivity|].
  split; [unfold shape0, DataFrame_of_frame; cbn [values]; apply length_map|].
  split; [|split; [|split; [|split]]].
  - intros Hnd. cbn [DataFrame_default columns].
    rewrite (@reset_index_drop_shape1 xf xr); [reflexivity| |assumption].
    unfold xf. cbn [columns]. unfold sel, labels_at.
    apply NoDup_map_nth; [assumption | apply NoDup_filter, seq_NoDup |].
    exact (selected_in_range x).
  - intros Hnd. cbn [DataFrame_default columns].
    now rewrite (@reset_index_drop_shape1 y yr Hnd Hyr).
  - lia.
  - unfold shape0 in *. cbn [values DataFrame_default] in *. lia.
  - unfold shape0 in *. cbn [values DataFrame_default] in *. lia.
Qed.

End WithLibrary.

Lemma backward_eliminator_never_narrows_witness :
  backward_eliminator (L := Example.library) [Name "a"; Name "b"]
                      Cases.x_fit Cases.y_fit Cases.t_fit =
  Ok (mkFrame [Name "a"; Name "b"] (RangeIndex 5) (values Cases.x_fit),
      DataFrame_of_frame Cases.t_fit [Name "a"; Name "b"]).
Proof.
  assert (Hrun : exists a b,
             backward_eliminator (L := Example.library) [Name "a"; Name "b"]
                                 Cases.x_fit Cases.y_fit Cases.t_fit = Ok (a, b))
    by (eexists; eexists; vm_compute; reflexivity).
  destruct Hrun as [a [b Hrun]]. rewrite Hrun.
  destruct (@backward_eliminator_never_narrows Example.library _ _ _ _ _ _ Hrun)
    as [Ha [Hb _]].
  now rewrite Ha, Hb.
Defined.

Lemma preprocessing_too_few_samples_witness :
  fst (preprocessing (L := Example.library) Cases.x_one Cases.x_one Cases.x_one Cases.w0)
  = Raise ValueError.
Proof.
  refine (proj2 (@preprocessing_too_few_samples Example.library
                   Cases.x_one Cases.x_one Cases.x_one Cases.w0
                   [Name "a"] Cases.x_one Cases.x_one eq_refl) eq_refl _).
  exact I.
Defined.

Lemma preprocessing_postcondition_witness :
  fst (preprocessing (L := Example.library)
         Cases.x_fit Cases.y_fit Cases.t_fit Cases.w0) =
  Ok (DataFrame_default 2 (values Cases.x_fit),
      DataFrame_default 2 (values Cases.y_fit),
      Cases.t_fit) /\
  2 <= shape0 Cases.x_fit.
Proof.
  assert (Hrun : fst (preprocessing (L := Example.library)
                        Cases.x_fit Cases.y_fit Cases.t_fit Cases.w0) =
                 Ok (DataFrame_default 2 (values Cases.x_fit),
                     DataFrame_default 2 (values Cases.y_fit),
                     Cases.t_fit))
    by (vm_compute; reflexivity).
  split; [exact Hrun|].
  exact (proj1 (proj2 (proj2 (proj2 (proj2 (proj2
           (@preprocessing_postcondition Example.library _ _ _ _ _ _ _ Hrun))))))).
Defined.

End PreprocessingMore.

(** ** Team 17: extremes of the Outlier Filter *)

Module OutliersMore.
Import Team17 Spec17 Effects FrameFacts Outliers.

Lemma filter_none (A : Type) (f : A -> bool) (l : list A) :
  (forall a, In a l -> f a = false) -> filter f l = [].
Proof.
  induction l as [|a l IH]; intros Hall; simpl; [reflexivity|].
  rewrite (Hall a (or_introl eq_refl)). apply IH. intros b Hb. apply Hall. now right.
Qed.

Section WithLibrary.
Context {L : Library}.

(** X6: on at least two samples with as many label rows, when every
    fold's fit, prediction and error return and no column is labelled
    [index], the filter returns, and the rows it returns and the indices
    it records add up to the sample count; when no held-out error exceeds
    0.006 it returns the values of X and Y unchanged (under default
    labels), and when every one does it returns two frames without
    rows. *)
Theorem outlier_filter_extremes (x y : frame) (w : world) :
  2 <= shape0 x -> shape0 y = shape0 x -> folds_return x y ->
  ~ In (Name "index") (columns x) -> rectangular x ->
  ~ In (Name "index") (columns y) -> rectangular y ->
  (exists order x' y',
      fst (find_outliers x y w) = Ok order /\
      fst (outlier_filter x y w) = Ok (x', y') /\
      shape0 x' + length order = shape0 x /\
      shape0 y' + length order = shape0 y) /\
  ((forall k, k < shape0 x -> flagged x y k = false) ->
   fst (outlier_filter x y w) =
     Ok (DataFrame_default (shape1 x) (values x),
         DataFrame_default (shape1 y) (values y))) /\
  ((forall k, k < shape0 x -> flagged x y k = true) ->
   fst (outlier_filter x y w) =
     Ok (DataFrame_default (shape1 x) [], DataFrame_default (shape1 y) [])).
Proof.
  intros Hn Hy Hret Hix Hrx Hiy Hry.
  pose proof (@outlier_filter_loo L x y _ _ w Hn Hy Hret
                (@reset_index_drop_plain x Hix Hrx)
                (@reset_index_drop_plain y Hiy Hry)) as Hrun.
  unfold shape1 at 1 2 in Hrun. cbn [columns values] in Hrun.
  fold (shape1 x) in Hrun. fold (shape1 y) in Hrun.
  split; [|split].
  - eexists. eexists. eexists.
    split; [now rewrite find_outliers_loo|]. split; [exact Hrun|].
    pose proof (filter_length (flagged x y) (seq 0 (shape0 x))) as Hlen.
    rewrite length_seq in Hlen.
    split; [unfold shape0 at 1 | unfold shape0 at 1; rewrite Hy];
      cbn [DataFrame_default values]; unfold survivors; rewrite length_map; lia.
  - intros Hnone. rewrite Hrun.
    assert (Hall : filter (fun k => negb (flagged x y k)) (seq 0 (shape0 x))
                   = seq 0 (shape0 x)).
    { apply forallb_filter_id, forallb_forall. intros k Hk. apply in_seq in Hk.
      rewrite Hnone by lia. reflexivity. }
    unfold survivors. rewrite Hall.
    unfold shape0 at 1. rewrite (map_nth_seq_id (values x) []).
    rewrite <- Hy. unfold shape0 at 1. rewrite (map_nth_seq_id (values y) []).
    reflexivity.
  - intros Hevery. rewrite Hrun.
    assert (Hnil : filter (fun k => negb (flagged x y k)) (seq 0 (shape0 x)) = []).
    { apply filter_none. intros k Hk. apply in_seq in Hk.
      rewrite Hevery by lia. reflexivity. }
    unfold survivors. rewrite Hnil. reflexivity.
Qed.

End WithLibrary.

Lemma outlier_filter_extremes_witness :
  exists x' y',
    fst (find_outliers (L := Example.library) Cases.x_five Cases.y_five Cases.w0)
      = Ok [4] /\
    fst (outlier_filter (L := Example.library) Cases.x_five Cases.y_five Cases.w0)
      = Ok (x', y') /\
    shape0 x' + 1 = shape0 Cases.x_five /\
    shape0 y' + 1 = shape0 Cases.y_five.
Proof.
  assert (H2 : 2 <= shape0 Cases.x_five) by (vm_compute; lia).
  assert (Hix : ~ In (Name "index") (columns Cases.x_five))
    by (simpl; intuition discriminate).
  assert (Hrx : rectangular Cases.x_five) by (repeat constructor).
  assert (Hiy : ~ In (Name "index") (columns Cases.y_five))
    by (simpl; intuition discriminate).
  assert (Hry : rectangular Cases.y_five) by (repeat constructor).
  destruct (proj1 (@outlier_filter_extremes Example.library Cases.x_five Cases.y_five
                     Cases.w0 H2 eq_refl five_folds_return Hix Hrx Hiy Hry))
    as [order [x' [y' [Hfind [Hrun [Hx Hy]]]]]].
  assert (Horder : order = [4]).
  { assert (Hc : fst (find_outliers (L := Example.library)
                        Cases.x_five Cases.y_five Cases.w0) = Ok [4])
      by (vm_compute; reflexivity).
    rewrite Hc in Hfind. now inversion Hfind. }
  subst order. exists x', y'. repeat split; assumption.
Defined.

End OutliersMore.

(** ** The cross-validation loops *)

Module CrossValidationMore.
Import Team17 Effects.

Lemma blocks_length (sizes indices : list nat) :
  length (blocks sizes indices) = length sizes.
Proof.
  revert indices. induction sizes as [|s sizes IH]; intros indices; simpl;
    [reflexivity | now rewrite IH].
Qed.

Section WithLibrary.
Context {L : Library}.

Lemma KFold_split_ok (n_splits : nat) (random_state : option nat) (shuffle : bool)
      (n : nat) (w : world) (folds : list (list nat * list nat)) :
  fst (KFold_split n_splits random_state shuffle n w) = Ok folds ->
  length folds = n_splits /\ 2 <= n_splits /\ n_splits <= n.
Proof.
  unfold KFold_split.
  destruct (n_splits <=? 1) eqn:H1; [discriminate|].
  destruct (negb shuffle && _); [discriminate|].
  destruct (n <? n_splits) eqn:H2; [discriminate|].
  apply Nat.leb_gt in H1. apply Nat.ltb_ge in H2.
  destruct (if shuffle then _ else _) as [indices w'].
  cbn [fst]. intros H. inversion H; subst folds; clear H.
  rewrite length_map, blocks_length. unfold fold_sizes.
  rewrite length_map, length_seq. lia.
Qed.

Lemma KFold_split_few_samples (n_splits : nat) (random_state : option nat)
      (n : nat) (w : world) :
  2 <= n_splits -> n < n_splits ->
  KFold_split n_splits random_state true n w = (Raise ValueError, w).
Proof.
  intros Hk Hn. unfold KFold_split.
  replace (n_splits <=? 1) with false by (symmetry; apply Nat.leb_gt; lia).
  cbn [negb andb].
  now replace (n <? n_splits) with true by (symmetry; apply Nat.ltb_lt; lia).
Qed.

Lemma mfor_each_appends (A B : Type) (size : B -> nat) (body : B -> A -> M B)
      (l : list A) :
  (forall acc a w acc', fst (body acc a w) = Ok acc' -> size acc' = S (size acc)) ->
  forall acc w r, fst (mfor_each body l acc w) = Ok r ->
                  size r = size acc + length l.
Proof.
  intros Hbody. induction l as [|a l IH]; intros acc w r Hrun; cbn [mfor_each] in Hrun.
  - inversion Hrun. simpl. lia.
  - unfold mbind in Hrun. destruct (body acc a w) as [[acc'|e] w'] eqn:Hb;
      [|discriminate].
    apply IH in Hrun. simpl.
    assert (Hlen : size acc' = S (size acc))
      by (apply (Hbody acc a w); now rewrite Hb).
    lia.
Qed.

Lemma cv_body_appends (X Y : frame) (acc : list pyfloat * list pyfloat * list pyfloat)
      (fold : list nat * list nat) (w : world)
      (acc' : list pyfloat * list pyfloat * list pyfloat) :
  fst (cv_body X Y acc fold w) = Ok acc' ->
  first_length acc' = S (first_length acc).
Proof.
  unfold cv_body, mbind, lift, ret. destruct acc as [[errors maes] pcc].
  destruct (iloc_rows Y (snd fold)) as [y_test|e0]; [|discriminate].
  destruct (fold_preprocessing X Y fold w) as [[[[xa xb] xc]|e] w']; [|discriminate].
  destruct (train_model xa xb) as [m|e]; [|discriminate].
  destruct (predict xc m) as [y_pred|e]; [|discriminate].
  destruct (error_func y_test y_pred) as [error|e]; [|discriminate].
  destruct (mean_absolute_error _ _) as [a|e]; [|discriminate].
  destruct (pearsonr _ _) as [r|e]; [|discriminate].
  cbn [fst]. intros H. inversion H. unfold first_length. cbn [fst].
  rewrite length_app. simpl. lia.
Qed.

Lemma cv5_body_appends (X y : frame) (acc : list pyfloat * list pyfloat * list pyfloat)
      (fold : list nat * list nat) (w : world)
      (acc' : list pyfloat * list pyfloat * list pyfloat) :
  fst (Team15.cv5_body X y acc fold w) = Ok acc' ->
  first_length acc' = S (first_length acc).
Proof.
  unfold Team15.cv5_body, mbind, lift, ret. destruct acc as [[mse mae] pear].
  destruct (Team15.cv5_fold X y fold) as [[[[xa xb] xc] xd]|e]; [|discriminate].
  destruct (estimator_fit xa xc) as [m|e]; [|discriminate].
  destruct (model_predict m xb) as [prediction|e]; [|discriminate].
  destruct (mean_squared_error _ _) as [e1|e]; [|discriminate].
  destruct (mean_absolute_error _ _) as [a|e]; [|discriminate].
  destruct (pearsonr _ _) as [r|e]; [|discriminate].
  destruct (Team15.per_sample _ _) as [u|e]; [|discriminate].
  cbn [fst]. intros H. inversion H. unfold first_length. cbn [fst].
  rewrite length_app. simpl. lia.
Qed.

(** X7: Team 17's [cross_validation] needs five samples.  With fewer the
    split raises [ValueError], and so does the whole script before anything
    is written; when [cross_validation] returns, it returns exactly five
    errors, the number its averages divide by. *)
Theorem cross_validation_five_folds (x y : frame) (w : world) :
  (shape0 x < 5 ->
   cross_validation x y w = (Raise ValueError, w) /\
   forall x_tst, fst (main x y x_tst w) = Raise ValueError) /\
  (forall errors, fst (cross_validation x y w) = Ok errors ->
                  length errors = 5 /\ 5 <= shape0 x).
Proof.
  split.
  - intros Hfew.
    assert (Hcv : forall w', cross_validation x y w' = (Raise ValueError, w')).
    { intros w'. unfold cross_validation, mbind, cv_split.
      now rewrite KFold_split_few_samples by lia. }
    split; [apply Hcv|]. intros x_tst.
    unfold main. unfold mbind at 1. cbn [module_init mbind np_random_seed r_seed].
    unfold mbind at 1. now rewrite Hcv.
  - intros errors Hrun. unfold cross_validation, mbind in Hrun.
    destruct (cv_split x w) as [[folds|e] w'] eqn:Hsplit; [|discriminate].
    assert (Hfolds : fst (KFold_split 5 (Some 1) true (shape0 x) w) = Ok folds)
      by (unfold cv_split in Hsplit; now rewrite Hsplit).
    apply KFold_split_ok in Hfolds. destruct Hfolds as [Hlen [_ Hn]].
    destruct (mfor_each (cv_body x y) folds ([], [], []) w')
      as [[[[errors0 maes] pcc]|e] w''] eqn:Hloop; [|discriminate].
    cbn [fst ret] in Hrun. inversion Hrun; subst errors0; clear Hrun.
    assert (Hloop' : fst (mfor_each (cv_body x y) folds ([], [], []) w')
                     = Ok (errors, maes, pcc)) by now rewrite Hloop.
    apply (mfor_each_appends first_length (cv_body x y) folds
                             (@cv_body_appends x y)) in Hloop'.
    unfold first_length in Hloop'. cbn [fst length] in Hloop'. lia.
Qed.

(** X8: Team 15's [cv5] needs five samples as well: with fewer it raises
    [ValueError]; when it returns, it has collected exactly five mean
    squared errors. *)
Theorem cv5_five_folds (X y : frame) (w : world) :
  (shape0 X < 5 -> Team15.cv5 X y w = (Raise ValueError, w)) /\
  (forall mse, fst (Team15.cv5 X y w) = Ok mse -> length mse = 5 /\ 5 <= shape0 X).
Proof.
  split.
  - intros Hfew. unfold Team15.cv5, mbind.
    now rewrite KFold_split_few_samples by lia.
  - intros mse Hrun. unfold Team15.cv5, mbind in Hrun.
    destruct (KFold_split 5 (Some 1) true (shape0 X) w) as [[folds|e] w'] eqn:Hsplit;
      [|discriminate].
    assert (Hfolds : fst (KFold_split 5 (Some 1) true (shape0 X) w) = Ok folds)
      by now rewrite Hsplit.
    apply KFold_split_ok in Hfolds. destruct Hfolds as [Hlen [_ Hn]].
    destruct (mfor_each (Team15.cv5_body X y) folds ([], [], []) w')
      as [[[[mse0 mae] pear]|e] w''] eqn:Hloop; [|discriminate].
    cbn [fst ret] in Hrun. inversion Hrun; subst mse0; clear Hrun.
    assert (Hloop' : fst (mfor_each (Team15.cv5_body X y) folds ([], [], []) w')
                     = Ok (mse, mae, pear)) by now rewrite Hloop.
    apply (mfor_each_appends first_length (Team15.cv5_body X y) folds
                             (@cv5_body_appends X y)) in Hloop'.
    unfold first_length in Hloop'. cbn [fst length] in Hloop'. lia.
Qed.

End WithLibrary.

Lemma cross_validation_five_folds_witness :
  fst (main (L := Example.library) Cases.x_abc Cases.x_abc Cases.x_abc Cases.w0)
  = Raise ValueError.
Proof.
  refine (proj2 (proj1 (@cross_validation_five_folds Example.library
                          Cases.x_abc Cases.x_abc Cases.w0) _) Cases.x_abc).
  vm_compute. lia.
Defined.

Lemma cv5_five_folds_witness :
  Team15.cv5 (L := Example.library) Cases.x_abc Cases.x_abc Cases.w0
  = (Raise ValueError, Cases.w0).
Proof.
  refine (proj1 (@cv5_five_folds Example.library Cases.x_abc Cases.x_abc Cases.w0) _).
  vm_compute. lia.
Defined.

End CrossValidationMore.

(** ** Effects on the process-wide generators *)

Module Generators.
Import Team17 Effects.

Section WithLibrary.
Context {L : Library}.

Lemma untouched_ret (A : Type) (a : A) : untouched (ret a).
Proof. intros w. reflexivity. Qed.

Lemma untouched_lift (A : Type) (r : result A) : untouched (lift r).
Proof. intros w. reflexivity. Qed.

Lemma untouched_bind (A B : Type) (m : M A) (k : A -> M B) :
  untouched m -> (forall a, untouched (k a)) -> untouched (mbind m k).
Proof.
  intros Hm Hk w. unfold mbind. specialize (Hm w).
  destruct (m w) as [[a|e] w']; cbn [snd] in *; subst w'; [apply Hk | reflexivity].
Qed.

Lemma untouched_mfor_each (A S : Type) (body : S -> A -> M S) (l : list A) (s : S) :
  (forall s' a, untouched (body s' a)) -> untouched (mfor_each body l s).
Proof.
  intros Hbody. revert s. induction l as [|a l IH]; intros s; cbn [mfor_each].
  - apply untouched_ret.
  - apply untouched_bind; [apply Hbody | exact IH].
Qed.

Lemma untouched_KFold_split (n_splits : nat) (random_state : option nat)
      (shuffle : bool) (n : nat) :
  shuffle = false \/ random_state <> None ->
  untouched (KFold_split n_splits random_state shuffle n).
Proof.
  intros Hmode w. unfold KFold_split.
  destruct (n_splits <=? 1); [reflexivity|].
  destruct (negb shuffle && _); [reflexivity|].
  destruct (n <? n_splits); [reflexivity|].
  destruct shuffle; [|reflexivity].
  destruct random_state as [s|]; [reflexivity|].
  destruct Hmode as [Hs | Hr]; [discriminate | now elim Hr].
Qed.

Lemma settled_of_untouched (A : Type) (m : M A) : untouched m -> settled m.
Proof. intros Hm w. left. apply Hm. Qed.

Lemma settled_bind (A B : Type) (m : M A) (k : A -> M B) :
  settled m -> (forall a, settled (k a)) -> settled (mbind m k).
Proof.
  intros Hm Hk w. unfold mbind. specialize (Hm w).
  destruct (m w) as [[a|e] w']; cbn [snd] in *; [|exact Hm].
  specialize (Hk a w'). destruct Hm as [-> | ->]; [exact Hk|].
  right. destruct Hk as [-> | ->]; reflexivity.
Qed.

Lemma settled_mfor_each (A S : Type) (body : S -> A -> M S) (l : list A) (s : S) :
  (forall s' a, settled (body s' a)) -> settled (mfor_each body l s).
Proof.
  intros Hbody. revert s. induction l as [|a l IH]; intros s; cbn [mfor_each].
  - apply settled_of_untouched, untouched_ret.
  - apply settled_bind; [apply Hbody | exact IH].
Qed.

Lemma settled_r_seed : settled (r_seed 1).
Proof. intros w. right. reflexivity. Qed.

Lemma settled_preprocessing (x y t : frame) : settled (preprocessing x y t).
Proof.
  unfold preprocessing.
  apply settled_bind; [apply settled_of_untouched, untouched_lift|].
  intros [[sel t0] t1].
  apply settled_bind; [apply settled_of_untouched, untouched_lift|].
  intros [x' t'].
  apply settled_bind; [|intros [x'' y']; apply settled_of_untouched, untouched_ret].
  unfold outlier_filter.
  apply settled_bind; [|intros order; apply settled_of_untouched, untouched_lift].
  unfold find_outliers. apply settled_bind; [apply settled_r_seed|]. intros _.
  apply settled_bind.
  - apply settled_of_untouched, untouched_KFold_split. now left.
  - intros folds. apply settled_of_untouched, untouched_lift.
Qed.

(** A chain of library calls and a final [ret] touches no generator. *)
Lemma untouched_lifts (A B : Type) (r : result A) (k : A -> M B) :
  (forall a, untouched (k a)) -> untouched (mbind (lift r) k).
Proof. intros Hk. apply untouched_bind; [apply untouched_lift | exact Hk]. Qed.

Ltac library_calls :=
  repeat first [ apply untouched_ret
               | apply untouched_lift
               | apply untouched_lifts; intros ? ].

Lemma settled_cross_validation (x y : frame) : settled (cross_validation x y).
Proof.
  unfold cross_validation. apply settled_bind.
  - apply settled_of_untouched, untouched_KFold_split. right. discriminate.
  - intros folds.
    apply settled_bind;
      [|intros [[errors maes] pcc]; apply settled_of_untouched, untouched_ret].
    apply settled_mfor_each. intros [[errors maes] pcc] fold. unfold cv_body.
    apply settled_bind; [apply settled_of_untouched, untouched_lift|]. intros y_test.
    apply settled_bind;
      [|intros [[a b] c]; apply settled_of_untouched; library_calls].
    unfold fold_preprocessing. destruct fold as [train test].
    apply settled_bind; [apply settled_of_untouched, untouched_lift|]. intros x_train.
    apply settled_bind; [apply settled_of_untouched, untouched_lift|]. intros y_train.
    apply settled_bind; [apply settled_of_untouched, untouched_lift|]. intros x_test.
    apply settled_preprocessing.
Qed.

Lemma untouched_cv5 (X y : frame) : untouched (Team15.cv5 X y).
Proof.
  unfold Team15.cv5. apply untouched_bind.
  - apply untouched_KFold_split. right. discriminate.
  - intros folds.
    apply untouched_bind; [|intros [[mse mae] pear]; apply untouched_ret].
    apply untouched_mfor_each. intros [[mse mae] pear] fold.
    unfold Team15.cv5_body.
    apply untouched_bind; [apply untouched_lift|].
    intros [[[a b] c] d]. library_calls.
Qed.

(** X9: no stage draws from the process-wide generators.  Team 17's
    [preprocessing] and [cross_validation] never change numpy's generator
    (their only effect is line 129, which re-seeds Python's generator with
    1), Team 15's [cv5] changes neither, and after Team 17's script both
    generators are in the state the seed 1 gives, whether it returned or
    raised. *)
Theorem generators_after_run (x y x_tst : frame) (w : world) :
  np_random (snd (preprocessing x y x_tst w)) = np_random w /\
  np_random (snd (cross_validation x y w)) = np_random w /\
  snd (Team15.cv5 x y w) = w /\
  snd (main x y x_tst w) = mkWorld (seed_state 1) (seed_state 1).
Proof.
  split; [|split; [|split]].
  - destruct (settled_preprocessing x y x_tst w) as [-> | ->]; reflexivity.
  - destruct (settled_cross_validation x y w) as [-> | ->]; reflexivity.
  - apply untouched_cv5.
  - unfold main. unfold mbind at 1.
    cbn [module_init mbind np_random_seed r_seed np_random py_random].
    set (w1 := mkWorld (seed_state 1) (seed_state 1)).
    assert (Hrest : settled
              (_ <~ cross_validation x y ;;
               '(x_tra, y_tra, x_tst0) <~ preprocessing x y x_tst ;;
               m <~ lift (train_model x_tra y_tra) ;;
               predictions <~ lift (predict x_tst0 m) ;;
               ret (write_output predictions))).
    { apply settled_bind; [apply settled_cross_validation|]. intros _.
      apply settled_bind; [apply settled_preprocessing|].
      intros [[a b] c]. apply settled_of_untouched. library_calls. }
    destruct (Hrest w1) as [H | H]; exact H.
Qed.

End WithLibrary.

Lemma generators_after_run_witness :
  snd (main (L := Example.library) Cases.x_fit Cases.y_fit Cases.t_fit Cases.w0)
  = mkWorld (L := Example.library) 1 1.
Proof.
  exact (proj2 (proj2 (proj2
    (@generators_after_run Example.library Cases.x_fit Cases.y_fit Cases.t_fit
       Cases.w0)))).
Defined.

End Generators.

(** ** Team 15: dropping duplicate columns *)

Module Duplicates.
Import Team15 Effects FrameFacts.












End Duplicates.

(** ** The files written and the files read *)

Module FilesMore.
Import Effects FrameFacts ReducerMore Loaders.

Lemma combine_seq_fst (A : Type) (l : list A) (a : nat) :
  map fst (combine (seq a (length l)) l) = seq a (length l).
Proof.
  revert a. induction l as [|v l IH]; intros a; simpl; [reflexivity | now rewrite IH].
Qed.

Lemma combine_seq_snd (A : Type) (l : list A) (a : nat) :
  map snd (combine (seq a (length l)) l) = l.
Proof.
  revert a. induction l as [|v l IH]; intros a; simpl; [reflexivity | now rewrite IH].
Qed.

(** A value with six decimals is printed as it is. *)
Lemma format_f_idempotent (v : pyfloat) :
  Team15.format_f (Team15.format_f v) = Team15.format_f v.
Proof.
  destruct v as [|q]; [reflexivity|]. unfold Team15.format_f.
  set (z := Team15.round_half_even (q * 1000000)).
  f_equal. f_equal. unfold Team15.round_half_even.
  assert (Hfloor : Qfloor ((z # 1000000) * 1000000) = z).
  { unfold Qmult, Qfloor. cbn [Qnum Qden].
    change (Z.pos (1000000 * 1)) with 1000000%Z.
    rewrite Z.mul_comm. change (inject_Z 1000000) with (1000000 # 1)%Q.
    cbn [Qnum]. rewrite Z.mul_comm. now apply Z.div_mul. }
  rewrite Hfloor.
  assert (Hlt : ((z # 1000000) * 1000000 - inject_Z z < 1 # 2)%Q).
  { assert (Hz : (z # 1000000 == inject_Z z * (1 # 1000000))%Q)
      by (rewrite Qmake_Qdiv; reflexivity).
    rewrite Hz. lra. }
  destruct (Qcompare ((z # 1000000) * 1000000 - inject_Z z) (1 # 2)) eqn:Hc.
  - apply Qeq_alt in Hc. rewrite Hc in Hlt. now apply Qlt_irrefl in Hlt.
  - reflexivity.
  - apply Qgt_alt in Hc. exfalso. apply (Qlt_irrefl (1 # 2)).
    now apply Qlt_trans with ((z # 1000000) * 1000000 - inject_Z z)%Q.
Qed.

(** X11: the two columns of the written files, for any predictions.  The
    ID column counts from 0; Team 17's predicted column is the flattened
    array itself, Team 15's is the flattened array printed with ["%f"];
    and writing the predicted column of a written file again gives the same
    rows in both scripts. *)
Theorem written_columns (predictions : list (list pyfloat)) :
  map fst (rows (Team17.write_output predictions)) =
    seq 0 (length (flatten predictions)) /\
  map snd (rows (Team17.write_output predictions)) = flatten predictions /\
  map fst (rows (Team15.write_output predictions)) =
    seq 0 (length (flatten predictions)) /\
  map snd (rows (Team15.write_output predictions)) =
    map Team15.format_f (flatten predictions) /\
  rows (Team17.write_output [map snd (rows (Team17.write_output predictions))]) =
    rows (Team17.write_output predictions) /\
  rows (Team15.write_output [map snd (rows (Team15.write_output predictions))]) =
    rows (Team15.write_output predictions).
Proof.
  assert (H17 : map snd (rows (Team17.write_output predictions)) = flatten predictions).
  { unfold Team17.write_output. cbn [rows]. apply combine_seq_snd. }
  assert (H15 : map snd (rows (Team15.write_output predictions)) =
                map Team15.format_f (flatten predictions)).
  { unfold Team15.write_output. cbn [rows]. rewrite Writers.arange_minus_one.
    rewrite <- (length_map Team15.format_f (flatten predictions)).
    apply combine_seq_snd. }
  split; [|split; [exact H17|split; [|split; [exact H15|split]]]].
  - unfold Team17.write_output. cbn [rows]. apply combine_seq_fst.
  - unfold Team15.write_output. cbn [rows]. rewrite Writers.arange_minus_one.
    rewrite <- (length_map Team15.format_f (flatten predictions)) at 1.
    rewrite combine_seq_fst. now rewrite length_map.
  - rewrite H17. unfold Team17.write_output, flatten. cbn [concat].
    now rewrite app_nil_r.
  - rewrite H15. unfold Team15.write_output, flatten. cbn [concat rows].
    rewrite app_nil_r, !Writers.arange_minus_one, !length_map, map_map.
    f_equal. apply map_ext. intros v. apply format_f_idempotent.
Qed.

Lemma written_columns_witness :
  map snd (rows (Team17.write_output Cases.predictions_2x2)) =
  flatten Cases.predictions_2x2.
Proof. exact (proj1 (proj2 (written_columns Cases.predictions_2x2))). Defined.

Lemma kept_after_first (c : label) (rest : list label) :
  ~ In c rest ->
  filter (fun p => negb (label_eqb (nth p (c :: rest) (Pos 0)) c))
         (seq 0 (length (c :: rest))) = seq 1 (length rest).
Proof.
  intros Hnot. cbn [length seq filter nth].
  replace (label_eqb c c) with true by (symmetry; now apply label_eqb_eq).
  cbn [negb]. apply forallb_filter_id, forallb_forall. intros p Hp.
  apply in_seq in Hp. destruct p as [|p]; [lia|]. cbn [nth].
  destruct (label_eqb (nth p rest (Pos 0)) c) eqn:Heq; [|reflexivity].
  apply label_eqb_eq in Heq. exfalso. apply Hnot. rewrite <- Heq.
  apply nth_In. lia.
Qed.

Lemma take_after_first (row : list pyfloat) (n : nat) :
  length row = S n -> take_positions (seq 1 n) row = skipn 1 row.
Proof.
  intros Hlen. destruct row as [|a r]; [discriminate|]. cbn [skipn].
  unfold take_positions. rewrite <- seq_shift, map_map.
  injection Hlen as Hlen. rewrite <- Hlen. cbn [nth]. apply map_nth_seq_id.
Qed.

(** X12: the loaders.  Team 17's [load_data] raises [KeyError] as soon as
    one of the three files has no column labelled ID; Team 15's drops the
    first column whatever its label.  On files whose first column is the
    only one labelled ID the two loaders give the same frames. *)
Theorem loaders_agree (read_x read_y read_tst : frame) :
  ((~ In (Name "ID") (columns read_x) \/ ~ In (Name "ID") (columns read_y) \/
    ~ In (Name "ID") (columns read_tst)) ->
   Team17IO.load_data read_x read_y read_tst = Raise KeyError) /\
  ((forall read, In read [read_x; read_y; read_tst] ->
      rectangular read /\
      exists rest, columns read = Name "ID" :: rest /\ ~ In (Name "ID") rest) ->
   Team17IO.load_data read_x read_y read_tst =
   Ok (Team15IO.load_data read_x, Team15IO.load_data read_y,
       Team15IO.load_data read_tst)).
Proof.
  assert (Hmissing : forall read, ~ In (Name "ID") (columns read) ->
                                  drop_columns read (Name "ID") = Raise KeyError).
  { intros read Hnot. unfold drop_columns. now rewrite positions_of_absent. }
  assert (Hraise : forall read, exists r,
             drop_columns read (Name "ID") = r /\
             (forall e, r = Raise e -> e = KeyError)).
  { intros read. eexists. split; [reflexivity|]. unfold drop_columns.
    destruct (positions_of _ _); intros e He; [now inversion He | discriminate]. }
  assert (Hsame : forall read,
             rectangular read ->
             (exists rest, columns read = Name "ID" :: rest /\ ~ In (Name "ID") rest) ->
             drop_columns read (Name "ID") = Ok (Team15IO.load_data read)).
  { intros read Hrect [rest [Hcols Hnot]]. unfold drop_columns.
    destruct (positions_of (Name "ID") (columns read)) as [|p ps] eqn:Hpos.
    - exfalso. apply (@positions_of_nonempty (Name "ID") (columns read));
        [rewrite Hcols; now left | assumption].
    - unfold shape1. rewrite Hcols. rewrite (@kept_after_first _ _ Hnot).
      unfold Team15IO.load_data, iloc_columns_from_1. rewrite Hcols. cbn [skipn].
      f_equal. f_equal.
      + rewrite <- seq_shift, map_map. cbn [nth]. apply map_nth_seq_id.
      + apply map_ext_in. intros row Hrow. apply take_after_first.
        unfold rectangular, shape1 in Hrect. rewrite Forall_forall in Hrect.
        rewrite (Hrect row Hrow), Hcols. reflexivity. }
  split.
  - intros Hor. unfold Team17IO.load_data.
    destruct (Hraise read_x) as [rx [Hx Hxe]].
    destruct (Hraise read_y) as [ry [Hy Hye]].
    destruct Hor as [H | [H | H]].
    + now rewrite Hmissing.
    + rewrite Hx. destruct rx as [a|e]; cbn [bind];
        [now rewrite Hmissing | now rewrite (Hxe e eq_refl)].
    + rewrite Hx. destruct rx as [a|e]; cbn [bind];
        [|now rewrite (Hxe e eq_refl)].
      rewrite Hy. destruct ry as [b|e]; cbn [bind];
        [now rewrite Hmissing | now rewrite (Hye e eq_refl)].
  - intros Hall. unfold Team17IO.load_data.
    destruct (Hall read_x) as [Hrx Hcx]; [now left|].
    destruct (Hall read_y) as [Hry Hcy]; [right; now left|].
    destruct (Hall read_tst) as [Hrt Hct]; [right; right; now left|].
    now rewrite !Hsame.
Qed.

Lemma loaders_agree_witness :
  Team17IO.load_data MoreCases.read_csv_xy MoreCases.read_csv_xy MoreCases.read_csv_xy =
  Ok (Team15IO.load_data MoreCases.read_csv_xy, Team15IO.load_data MoreCases.read_csv_xy,
      Team15IO.load_data MoreCases.read_csv_xy).
Proof.
  refine (proj2 (loaders_agree MoreCases.read_csv_xy MoreCases.read_csv_xy MoreCases.read_csv_xy) _).
  intros read [<- | [<- | [<- | []]]]; (split;
    [repeat constructor
    | exists [Name "f1"; Name "f2"]; split;
      [reflexivity | simpl; intuition discriminate]]).
Defined.

End FilesMore.

(** ** Team 17: when preprocessing succeeds *)

Module PreprocessingSucceeds.
Import Team17 Spec17 Effects FrameFacts ReducerFrames Eliminator Outliers ReducerMore.




Section WithLibrary.
Context {L : Library}.


End WithLibrary.



End PreprocessingSucceeds.
